(** * Store back office: the analytics overview

    A shallow embedding of [analytics_overview] (src/main.py) together with
    the record types of src/schemas.py it reads, and the properties of the
    report it assembles.

    Conventions of the embedding.
    - A UTC [datetime] is its timestamp in milliseconds since 1970-01-01,
      the resolution at which the document store keeps dates.  Its calendar
      fields ([year], [month], [day]) are obtained through the proleptic
      Gregorian ordinal, with the conversions of Python's [datetime] module.
    - Amounts are modelled twice.  The first part reads a Python [float]
      as an exact rational ([Q]) with exact sums, products and quotients,
      [round(x, 2)] rounding half to even on hundredths; it carries the
      properties of counts, keys and windows and the relations between
      outputs that rounding to a double preserves.  Module [Binary64]
      computes as the code does, every sum, product and quotient rounded
      to the nearest double; what is said of the value of a reported
      amount, or of a branch taken on an amount, is said there.
    - An aggregation pipeline is a composition of list transformers, one
      per stage ([$match], [$unwind], [$group], [$sort], [$limit]).
    - A raised exception is the [Raise] result of a small error monad.
    - Date arithmetic is total: the [OverflowError] Python raises outside
      the years 1 to 9999 is not modelled, [now] being a clock reading. *)

From Stdlib Require Import ZArith QArith Qround Qabs Qpower List Ascii String Lia Lqa.
From Stdlib Require Import Sorting.Sorted Sorting.Permutation.
From stdpp Require Import gmap strings.

Local Open Scope Z_scope.

(** ** Python values and exceptions *)

Module Py.

Inductive exn : Type :=
| HTTPException (status_code : Z) (detail : string)
| ZeroDivisionError.

Inductive result (A : Type) : Type :=
| Ok (a : A)
| Raise (e : exn).
Arguments Ok {A} a.
Arguments Raise {A} e.

Definition bind {A B} (r : result A) (k : A -> result B) : result B :=
  match r with
  | Ok a => k a
  | Raise e => Raise e
  end.

(** [a / b] on numbers: true division, raising on a zero divisor. *)
Definition truediv (a b : Q) : result Q :=
  if Qeq_bool b 0 then Raise ZeroDivisionError else Ok (a / b)%Q.

(** Nearest integer, ties to the even neighbour. *)
Definition round_half_even (q : Q) : Z :=
  let f := Qfloor q in
  match ((q - inject_Z f) ?= (1 # 2))%Q with
  | Lt => f
  | Gt => f + 1
  | Eq => if Z.even f then f else f + 1
  end.

(** [round(x, 2)]. *)
Definition round2 (q : Q) : Q :=
  (inject_Z (round_half_even (q * inject_Z 100)) / inject_Z 100)%Q.

(** [float(x)] and [int(n)] on values that already are numbers. *)
Definition float (q : Q) : Q := q.
Definition int (n : Z) : Z := n.

(** Truth value of an integer, as [if n:] reads it. *)
Definition truthy (n : Z) : bool := negb (n =? 0).

(** [x or default] on an optional string: [None] and [""] are falsy. *)
Definition str_or (x : option string) (default : string) : string :=
  match x with
  | None => default
  | Some s => if String.eqb s EmptyString then default else s
  end.

End Py.

#[global] Instance result_ret : MRet Py.result := fun _ a => Py.Ok a.
#[global] Instance result_bind : MBind Py.result := fun _ _ k r => Py.bind r k.

(** ** Calendar arithmetic of [datetime] *)

Module Calendar.

Definition is_leap (year : Z) : bool :=
  (year mod 4 =? 0) && (negb (year mod 100 =? 0) || (year mod 400 =? 0)).

(** Index 0 of both tables is a placeholder, months count from 1. *)
Definition DAYS_IN_MONTH : list Z :=
  [-1; 31; 28; 31; 30; 31; 30; 31; 31; 30; 31; 30; 31].
Definition DAYS_BEFORE_MONTH : list Z :=
  [-1; 0; 31; 59; 90; 120; 151; 181; 212; 243; 273; 304; 334].

Definition table (t : list Z) (i : Z) : Z := nth (Z.to_nat i) t 0.

Definition b2z (b : bool) : Z := if b then 1 else 0.

Definition days_before_year (year : Z) : Z :=
  let y := year - 1 in y * 365 + y / 4 - y / 100 + y / 400.

Definition days_before_month (year month : Z) : Z :=
  table DAYS_BEFORE_MONTH month + b2z ((2 <? month) && is_leap year).

(** [date(year, month, day).toordinal()]: 1 is 0001-01-01. *)
Definition ymd2ord (year month day : Z) : Z :=
  days_before_year year + days_before_month year month + day.

Definition DI400Y : Z := 146097.
Definition DI100Y : Z := 36524.
Definition DI4Y : Z := 1461.

(** Month and day of the [n]-th day (from 0) of a year. *)
Definition month_day (n : Z) (leapyear : bool) : Z * Z :=
  let month := Z.shiftr (n + 50) 5 in
  let preceding := table DAYS_BEFORE_MONTH month + b2z ((2 <? month) && leapyear) in
  if n <? preceding then
    let month' := month - 1 in
    let preceding' :=
      preceding - (table DAYS_IN_MONTH month' + b2z ((month' =? 2) && leapyear)) in
    (month', n - preceding' + 1)
  else (month, n - preceding + 1).

(** [date.fromordinal(n)] as a (year, month, day) triple. *)
Definition ord2ymd (n : Z) : Z * Z * Z :=
  let n := n - 1 in
  let n400 := n / DI400Y in
  let n := n mod DI400Y in
  let year := n400 * 400 + 1 in
  let n100 := n / DI100Y in
  let n := n mod DI100Y in
  let n4 := n / DI4Y in
  let n := n mod DI4Y in
  let n1 := n / 365 in
  let n := n mod 365 in
  let year := year + n100 * 100 + n4 * 4 + n1 in
  if (n1 =? 4) || (n100 =? 4) then (year - 1, 12, 31)
  else
    let leapyear := (n1 =? 3) && (negb (n4 =? 24) || (n100 =? 3)) in
    let '(month, day) := month_day n leapyear in
    (year, month, day).

(** Milliseconds in a day, and the ordinal of 1970-01-01. *)
Definition DAY_MS : Z := 86400000.
Definition EPOCH_ORD : Z := 719163.

(** [dt.toordinal()] of a timestamp. *)
Definition toordinal (t : Z) : Z := t / DAY_MS + EPOCH_ORD.

Definition year (t : Z) : Z := fst (fst (ord2ymd (toordinal t))).
Definition month (t : Z) : Z := snd (fst (ord2ymd (toordinal t))).
Definition day (t : Z) : Z := snd (ord2ymd (toordinal t)).

(** [datetime(year, month, day, tzinfo=timezone.utc)]: midnight. *)
Definition datetime (y m d : Z) : Z := (ymd2ord y m d - EPOCH_ORD) * DAY_MS.

(** [timedelta(days=n)]. *)
Definition timedelta_days (n : Z) : Z := n * DAY_MS.

Definition digit (n : Z) : ascii := ascii_of_nat (48 + Z.to_nat (n mod 10)).

Definition fmt02 (n : Z) : string :=
  String (digit (n / 10)) (String (digit n) EmptyString).

Definition fmt04 (n : Z) : string :=
  String (digit (n / 1000)) (String (digit (n / 100)) (fmt02 n)).

(** ["%04d-%02d-%02d"] of a calendar date. *)
Definition isoformat_ymd (ymd : Z * Z * Z) : string :=
  let '(y, m, d) := ymd in
  (fmt04 y ++ "-" ++ fmt02 m ++ "-" ++ fmt02 d)%string.

(** [d.isoformat()] for the date of ordinal [n]. *)
Definition isoformat (n : Z) : string := isoformat_ymd (ord2ymd n).

(** [dt.date().isoformat()], which is also what the store's
    [$dateToString] with format ["%Y-%m-%d"] yields for a stored date. *)
Definition day_key (t : Z) : string := isoformat (toordinal t).

End Calendar.

(** ** Stored documents (src/schemas.py) *)

(** A field of a stored document that may be absent or hold [None]. *)
Inductive field (A : Type) : Type :=
| Missing
| Null
| Value (a : A).
Arguments Missing {A}.
Arguments Null {A}.
Arguments Value {A} a.

Record OrderItem : Type := {
  product_id : string;
  title : string;
  price : Q;
  quantity : Z
}.

Record Order : Type := {
  customer_id : option string;
  customer_name : option string;
  items : list OrderItem;
  total_amount : Q;
  status : string;
  placed_at : option Z
}.

Record Customer : Type := {
  name : string;
  email : string;
  phone : option string;
  address : option string;
  city : option string;
  country : option string;
  segment : field string
}.

(** The two collections the overview reads: [db.order], [db.customer]. *)
Record Database : Type := {
  order : list Order;
  customer : list Customer
}.

(** ** Aggregation stages of the document store *)

Module Mongo.

(** [{"$match": {"placed_at": {"$gte": start}}}]: a document without a
    date never compares greater or equal to one. *)
Definition gte (start : Z) (placed : option Z) : bool :=
  match placed with
  | Some t => start <=? t
  | None => false
  end.

Definition match_placed_at_gte (start : Z) (docs : list Order) : list Order :=
  List.filter (fun o => gte start (placed_at o)) docs.

(** [{"$unwind": "$items"}]: one document per line item; only the item
    is read by the stages that follow. *)
Definition unwind_items (docs : list Order) : list OrderItem :=
  flat_map items docs.

(** The value a [$group] key expression reads from a field: absent
    fields group with [None]. *)
Definition field_key {A} (f : field A) : option A :=
  match f with
  | Value a => Some a
  | Missing | Null => None
  end.

(** One document enters its group, which is created on first use. *)
Fixpoint group_upd {K A} `{EqDecision K}
    (k : K) (f : A -> A) (init : A) (gs : list (K * A)) : list (K * A) :=
  match gs with
  | [] => [(k, f init)]
  | (k', a) :: gs' =>
      if decide (k = k') then (k', f a) :: gs'
      else (k', a) :: group_upd k f init gs'
  end.

(** [{"$group": {"_id": key, ...accumulators}}]: groups in order of
    first appearance, accumulators folded over the documents in order. *)
Definition group {D K A} `{EqDecision K}
    (key : D -> K) (init : A) (step : A -> D -> A) (docs : list D) : list (K * A) :=
  fold_left (fun gs d => group_upd (key d) (fun a => step a d) init gs) docs [].

Fixpoint insert_by {A} (before : A -> A -> bool) (x : A) (l : list A) : list A :=
  match l with
  | [] => [x]
  | y :: l' => if before x y then x :: l else y :: insert_by before x l'
  end.

(** [{"$sort": ...}] as a stable insertion sort; [before x y] says that
    [x] may precede [y]. *)
Definition sort_by {A} (before : A -> A -> bool) (l : list A) : list A :=
  fold_right (insert_by before) [] l.

(** [{"$limit": n}]. *)
Definition limit {A} (n : nat) (l : list A) : list A := firstn n l.

End Mongo.

(** ** The overview (src/main.py, [analytics_overview]) *)

(** Accumulators of the revenue/orders groups. *)
Record Sales : Type := {
  revenue : Q;
  orders : Z
}.

(** Accumulators of a product group. *)
Record ProductSales : Type := {
  sold_quantity : Z;
  sold_revenue : Q
}.

(** The projected document of the time-series pipeline. *)
Record DayAmount : Type := {
  da_day : option string;
  da_total_amount : Q
}.

Record TopProduct : Type := {
  tp_product_id : string;
  tp_title : string;
  tp_quantity : Z;
  tp_revenue : Q
}.

Record DayEntry : Type := {
  ts_day : string;
  ts_revenue : Q;
  ts_orders : Z
}.

Record SegmentCount : Type := {
  sc_segment : string;
  sc_count : Z
}.

Record Overview : Type := {
  today_revenue : Q;
  today_orders : Z;
  mtd_revenue : Q;
  mtd_orders : Z;
  avg_order_value : Q;
  top_products : list TopProduct;
  timeseries : list DayEntry;
  segments : list SegmentCount
}.

Definition no_sales : Sales := {| revenue := 0; orders := 0 |}.

(** ["revenue": {"$sum": "$total_amount"}, "orders": {"$count": {}}]. *)
Definition add_sale (a : Sales) (amount : Q) : Sales :=
  {| revenue := (revenue a + amount)%Q; orders := orders a + 1 |}.

(** [pipeline_today] and [pipeline_mtd] with their [start]. *)
Definition pipeline_window (start : Z) (docs : list Order) : list (unit * Sales) :=
  Mongo.group (fun _ => tt) no_sales (fun a o => add_sale a (total_amount o))
    (Mongo.match_placed_at_gte start docs).

(** [next(iter(cursor), None) or {"revenue": 0, "orders": 0}]. *)
Definition first_or_zero (cursor : list (unit * Sales)) : Sales :=
  match cursor with
  | g :: _ => snd g
  | [] => no_sales
  end.

Definition start_today (now : Z) : Z :=
  Calendar.datetime (Calendar.year now) (Calendar.month now) (Calendar.day now).

Definition start_month (now : Z) : Z :=
  Calendar.datetime (Calendar.year now) (Calendar.month now) 1.

Definition last_30 (now : Z) : Z := now - Calendar.timedelta_days 30.

Definition start_14 (now : Z) : Z := now - Calendar.timedelta_days 13.

Definition item_key (it : OrderItem) : string * string := (product_id it, title it).

Definition add_item (a : ProductSales) (it : OrderItem) : ProductSales :=
  {| sold_quantity := sold_quantity a + quantity it;
     sold_revenue := (sold_revenue a + price it * inject_Z (quantity it))%Q |}.

(** [{"$sort": {"revenue": -1}}]. *)
Definition revenue_desc (x y : (string * string) * ProductSales) : bool :=
  Qle_bool (sold_revenue (snd y)) (sold_revenue (snd x)).

Definition no_product_sales : ProductSales :=
  {| sold_quantity := 0; sold_revenue := 0 |}.

Definition pipeline_top_products (now : Z) (docs : list Order)
    : list ((string * string) * ProductSales) :=
  Mongo.limit 5
    (Mongo.sort_by revenue_desc
       (Mongo.group item_key no_product_sales add_item
          (Mongo.unwind_items (Mongo.match_placed_at_gte (last_30 now) docs)))).

Definition top_product_row (p : (string * string) * ProductSales) : TopProduct :=
  {| tp_product_id := fst (fst p);
     tp_title := snd (fst p);
     tp_quantity := sold_quantity (snd p);
     tp_revenue := Py.round2 (sold_revenue (snd p)) |}.

(** [{"$project": {"day": {"$dateToString": ...}, "total_amount": 1}}]. *)
Definition project_day (o : Order) : DayAmount :=
  {| da_day := Calendar.day_key <$> placed_at o;
     da_total_amount := total_amount o |}.

(** [{"$sort": {"_id": 1}}]. *)
Definition id_asc (x y : option string * Sales) : bool :=
  match fst x, fst y with
  | None, _ => true
  | Some _, None => false
  | Some a, Some b => String.leb a b
  end.

Definition pipeline_timeseries (now : Z) (docs : list Order)
    : list (option string * Sales) :=
  Mongo.sort_by id_asc
    (Mongo.group da_day no_sales (fun a d => add_sale a (da_total_amount d))
       (map project_day (Mongo.match_placed_at_gte (start_14 now) docs))).

(** [{d["_id"]: d for d in series}]. *)
Definition by_day (series : list (option string * Sales))
    : gmap (option string) Sales :=
  fold_left (fun m d => <[fst d := snd d]> m) series ∅.

(** The 14 day keys, [(start_14 + timedelta(days=i)).date().isoformat()]. *)
Definition days (now : Z) : list string :=
  map (fun i => Calendar.day_key (start_14 now + Calendar.timedelta_days (Z.of_nat i)))
    (seq 0 14).

Definition day_entry (m : gmap (option string) Sales) (d : string) : DayEntry :=
  {| ts_day := d;
     ts_revenue := Py.float (default 0%Q (revenue <$> m !! Some d));
     ts_orders := Py.int (default 0 (orders <$> m !! Some d)) |}.

(** [{"$sort": {"count": -1}}]. *)
Definition count_desc (x y : option string * Z) : bool := snd y <=? snd x.

Definition pipeline_segments (docs : list Customer) : list (option string * Z) :=
  Mongo.sort_by count_desc
    (Mongo.group (fun c => Mongo.field_key (segment c)) 0 (fun n _ => n + 1) docs).

Definition segment_row (s : option string * Z) : SegmentCount :=
  {| sc_segment := Py.str_or (fst s) "Uncategorized"; sc_count := snd s |}.

(** [analytics_overview()].  The module-level store handle [db] ([None]
    when no store is configured) and the clock reading
    [now = datetime.now(timezone.utc)] are parameters. *)
Definition analytics_overview (db : option Database) (now : Z) : Py.result Overview :=
  match db with
  | None => Py.Raise (Py.HTTPException 500 "Database not configured")
  | Some db =>
      let today := first_or_zero (pipeline_window (start_today now) (order db)) in
      let mtd := first_or_zero (pipeline_window (start_month now) (order db)) in
      avg_order_value ←
        (if Py.truthy (orders mtd)
         then q ← Py.truediv (revenue mtd) (inject_Z (orders mtd)); mret (Py.round2 q)
         else mret 0%Q);
      let top_products := map top_product_row (pipeline_top_products now (order db)) in
      let series := pipeline_timeseries now (order db) in
      let timeseries := map (day_entry (by_day series)) (days now) in
      let segments := map segment_row (pipeline_segments (customer db)) in
      mret {| today_revenue := Py.round2 (Py.float (revenue today));
              today_orders := Py.int (orders today);
              mtd_revenue := Py.round2 (Py.float (revenue mtd));
              mtd_orders := Py.int (orders mtd);
              avg_order_value := avg_order_value;
              top_products := top_products;
              timeseries := timeseries;
              segments := segments |}
  end.

(** ** Vocabulary of the statements *)

(** The documents of a group, in collection order. *)
Definition members {D K} `{EqDecision K} (key : D -> K) (k : K) (docs : list D) : list D :=
  List.filter (fun d => bool_decide (key d = k)) docs.

(** First binding of a key in a list of groups. *)
Fixpoint assoc {K A} `{EqDecision K} (k : K) (gs : list (K * A)) : option A :=
  match gs with
  | [] => None
  | (k', a) :: gs' => if decide (k = k') then Some a else assoc k gs'
  end.

Definition sumQ (l : list Q) : Q := fold_right Qplus 0%Q l.
Definition sumZ (l : list Z) : Z := fold_right Z.add 0 l.

Definition revenue_of (os : list Order) : Q := sumQ (map total_amount os).
Definition count_of {A} (l : list A) : Z := Z.of_nat (length l).

(** Orders dated at or after [start], and orders dated in [[start, stop]]. *)
Definition placed_since (start : Z) (o : Order) : bool :=
  match placed_at o with
  | Some t => start <=? t
  | None => false
  end.

Definition placed_within (start stop : Z) (o : Order) : bool :=
  match placed_at o with
  | Some t => (start <=? t) && (t <=? stop)
  | None => false
  end.

(** Orders whose date reads [d] in ["%Y-%m-%d"]. *)
Definition placed_on (d : string) (o : Order) : bool :=
  match placed_at o with
  | Some t => bool_decide (Calendar.day_key t = d)
  | None => false
  end.

Definition orders_since (start : Z) (db : Database) : list Order :=
  List.filter (placed_since start) (order db).

Definition orders_within (start stop : Z) (db : Database) : list Order :=
  List.filter (placed_within start stop) (order db).

Definition line_total (it : OrderItem) : Q := (price it * inject_Z (quantity it))%Q.

Definition group_quantity (k : string * string) (its : list OrderItem) : Z :=
  sumZ (map quantity (members item_key k its)).

Definition group_revenue (k : string * string) (its : list OrderItem) : Q :=
  sumQ (map line_total (members item_key k its)).

Definition row_key (p : TopProduct) : string * string := (tp_product_id p, tp_title p).

(** Number of distinct values in a list. *)
Definition distinct {K} `{EqDecision K} (l : list K) : nat :=
  length (nodup (fun x y => decide (x = y)) l).

(** A value with at most two decimal places. *)
Definition two_decimals (x : Q) : Prop := exists k : Z, (x == k # 100)%Q.

(** What a ranking of the product groups of [its] has to satisfy. *)
Record top_products_of (its : list OrderItem) (rows : list TopProduct) : Prop := {
  top_length : length rows = Nat.min 5 (distinct (map item_key its));
  top_nodup : List.NoDup (map row_key rows);
  top_rows : forall p, In p rows ->
    In (row_key p) (map item_key its) /\
    tp_quantity p = group_quantity (row_key p) its /\
    tp_revenue p = Py.round2 (group_revenue (row_key p) its);
  top_sorted :
    StronglySorted
      (fun p q => (group_revenue (row_key q) its <= group_revenue (row_key p) its)%Q
                  /\ (tp_revenue q <= tp_revenue p)%Q) rows;
  top_best : forall k p, In k (map item_key its) -> ~ In k (map row_key rows) ->
    In p rows -> (group_revenue k its <= group_revenue (row_key p) its)%Q
}.

(** The raw grouping key of a customer. *)
Definition segment_key (c : Customer) : option string := Mongo.field_key (segment c).

(** Customers without a usable segment: absent, [None] or empty. *)
Definition uncategorized (c : Customer) : bool :=
  match segment c with
  | Missing | Null => true
  | Value s => bool_decide (s = EmptyString)
  end.

(** Midnight of the day of [t]. *)
Definition midnight (t : Z) : Z := t / Calendar.DAY_MS * Calendar.DAY_MS.

(** Check of [month_day] on one day of the year. *)
Definition month_day_ok (n : Z) (leap : bool) : bool :=
  let '(m, d) := Calendar.month_day n leap in
  (1 <=? m) && (m <=? 12) && (1 <=? d) && (d <=? 31)
  && (Calendar.table Calendar.DAYS_BEFORE_MONTH m
      + Calendar.b2z ((2 <? m) && leap) + d =? n + 1).

(** The orders a day of the series aggregates: those the pipeline
    matched, dated at or after [start_14], that fall on the day. *)
Definition day_orders (now : Z) (d : string) (docs : list Order) : list Order :=
  List.filter (placed_on d) (List.filter (placed_since (start_14 now)) docs).

(** Timestamps whose date Python's [date] can hold: 0001-01-01 to
    9999-12-31. *)
Definition in_date_range (t : Z) : Prop :=
  1 <= Calendar.toordinal t <= 3652059.

(** All customers without a usable segment counted on one row. *)
Definition uncategorized_on_one_row (cs : list Customer) (rows : list SegmentCount) : Prop :=
  In {| sc_segment := "Uncategorized"; sc_count := count_of (List.filter uncategorized cs) |}
    rows.

(** Replacing a field of every stored order. *)
Definition set_items (f : Order -> list OrderItem) (o : Order) : Order :=
  {| customer_id := customer_id o; customer_name := customer_name o;
     items := f o; total_amount := total_amount o;
     status := status o; placed_at := placed_at o |}.

Definition set_total_amount (f : Order -> Q) (o : Order) : Order :=
  {| customer_id := customer_id o; customer_name := customer_name o;
     items := items o; total_amount := f o;
     status := status o; placed_at := placed_at o |}.

Definition map_orders (f : Order -> Order) (db : Database) : Database :=
  {| order := map f (order db); customer := customer db |}.

(** ** Sample data *)

Module Sample.

Definition item (pid t : string) (p : Q) (q : Z) : OrderItem :=
  {| product_id := pid; title := t; price := p; quantity := q |}.

Definition placed (its : list OrderItem) (amount : Q) (t : option Z) : Order :=
  {| customer_id := None; customer_name := None; items := its;
     total_amount := amount; status := "paid"; placed_at := t |}.

Definition client (seg : field string) : Customer :=
  {| name := "Alice Johnson"; email := "alice@example.com"; phone := None;
     address := None; city := None; country := None; segment := seg |}.

(** 2024-03-15 12:00:00 UTC. *)
Definition noon : Z := 1710504000000.
Definition hour : Z := 3600000.

Definition empty_db : Database := {| order := []; customer := [] |}.

(** Two orders placed today, 10.00 and 15.50. *)
Definition two_today : Database :=
  {| order := [ placed [item "p1" "Earbuds" (10 # 1) 1] (10 # 1) (Some (noon - hour));
                placed [item "p2" "Mouse" (155 # 10) 1] (155 # 10) (Some (noon - 2 * hour)) ];
     customer := [ client (Value "Retail"); client (Value "VIP"); client (Value "Retail") ] |}.

(** An order dated an hour after [noon], another an hour before it
    with a sub-cent amount. *)
Definition one_ahead : Database :=
  {| order := [ placed [item "p1" "Earbuds" (10 # 1) 1] (10 # 1) (Some (noon + hour));
                placed [] (4 # 1000) (Some (noon - hour)) ];
     customer := [] |}.

(** A single order, dated a day after [noon]. *)
Definition tomorrow : Database :=
  {| order := [ placed [item "p1" "Earbuds" (10 # 1) 1] (10 # 1) (Some (noon + 24 * hour)) ];
     customer := [] |}.

(** An order placed at 06:00 on the oldest day of the series ending
    on the day of [noon]. *)
Definition early_on_oldest_day : Database :=
  {| order := [ placed [item "p2" "Mouse" (55 # 10) 2] (11 # 1)
                  (Some (noon - 13 * 24 * hour - 6 * hour)) ];
     customer := [] |}.

(** One customer with [None] as segment, one with the empty string. *)
Definition unlabelled : Database :=
  {| order := []; customer := [ client Null; client (Value "") ] |}.

(** An order whose stored total is not the total of its items. *)
Definition mismatched : Database :=
  {| order := [ placed [item "p1" "Earbuds" (10 # 1) 2] (100 # 1) (Some (noon - hour)) ];
     customer := [] |}.

(** Three orders of half a cent each, this month. *)
Definition half_cents : Database :=
  {| order := [ placed [] (5 # 1000) (Some (noon - hour));
                placed [] (5 # 1000) (Some (noon - 2 * hour));
                placed [] (5 # 1000) (Some (noon - 3 * hour)) ];
     customer := [] |}.

(** Eight product groups with revenues 1 to 8, in one order. *)
Definition eight_products : Database :=
  {| order := [ placed (map (fun n => item (String (Calendar.digit n) "") "T" (inject_Z n) 1)
                          [3; 1; 8; 5; 2; 7; 4; 6])
                  (36 # 1) (Some (noon - hour)) ];
     customer := [] |}.

End Sample.

(** ** Order creation, demo orders and listings (src/main.py) *)

(** The request body of [create_order]. *)
Module Payload.
Record t : Type := {
  customer_id : option string;
  customer_name : option string;
  items : list OrderItem;
  status : option string
}.
End Payload.

(** The outcome of building a schema model: the model, or the field
    that fails its constraint. *)
Inductive validated (A : Type) : Type :=
| Valid (a : A)
| ValidationError (loc : string).
Arguments Valid {A} a.
Arguments ValidationError {A} loc.

(** [sum(xs)]: from 0, adding left to right. *)
Definition py_sum (l : list Q) : Q := fold_left Qplus l 0%Q.

(** [Order(...)]: of the fields [create_order] passes, [total_amount]
    carries a constraint, [Field(..., ge=0)]. *)
Definition Order_model (o : Order) : validated Order :=
  if Qle_bool 0 (total_amount o) then Valid o else ValidationError "total_amount".

(** [create_order(payload)] at the instant [now].  [create_document], of
    the [database] module, stores the document and yields its id; the
    response [{"id": order_id, **order_dict}] is the pair of the id and the
    document. *)
Definition create_order (create_document : string -> Order -> string)
    (payload : Payload.t) (now : Z) : validated (string * Order) :=
  let total_amount :=
    py_sum (map (fun item => (price item * inject_Z (quantity item))%Q)
              (Payload.items payload)) in
  match Order_model
          {| customer_id := Payload.customer_id payload;
             customer_name := Payload.customer_name payload;
             items := Payload.items payload;
             total_amount := total_amount;
             status := Py.str_or (Payload.status payload) "paid";
             placed_at := Some now |} with
  | Valid order => Valid (create_document "order" order, order)
  | ValidationError loc => ValidationError loc
  end.

(** A product and a customer as [seed_demo_data] reads them back from the
    store, the id already passed through [str]; a stored product has a
    title, its price is read with a default. *)
Record ProductDoc : Type := {
  pr_id : string;
  pr_title : string;
  pr_price : option Q
}.

Record CustomerDoc : Type := {
  cu_id : string;
  cu_name : option string
}.

(** The random draws of one round of the seeding loop: the sampled
    products, each with its quantity, the chosen customer ([None] when
    there is no customer), the age of the order in days. *)
Record Draws : Type := {
  picked : list (ProductDoc * Z);
  chosen : option CustomerDoc;
  days_back : Z
}.

(** The [order_doc] of one round of the loop of [seed_demo_data], at the
    instant [now] of that round. *)
Definition seed_order (d : Draws) (now : Z) : Order :=
  let items :=
    map (fun pq =>
           {| product_id := pr_id (fst pq);
              title := pr_title (fst pq);
              price := Py.float (default 0%Q (pr_price (fst pq)));
              quantity := snd pq |}) (picked d) in
  let total := py_sum (map (fun i => (price i * inject_Z (quantity i))%Q) items) in
  {| customer_id := cu_id <$> chosen d;
     customer_name := chosen d ≫= cu_name;
     items := items;
     total_amount := Py.round2 total;
     status := "paid";
     placed_at := Some (now - Calendar.timedelta_days (days_back d)) |}.

(** What the random module guarantees of the draws of a round. *)
Definition fair_draws (d : Draws) : Prop :=
  (1 <= length (picked d) <= 3)%nat
  /\ Forall (fun pq => 1 <= snd pq <= 3) (picked d)
  /\ 0 <= days_back d <= 29.

(** The loop of the listings, [d["id"] = str(d.pop("_id"))] on every
    document: a document without ["_id"] raises [KeyError] ([None]). *)
Section Listing.
Context {V : Type}.
Variable str : V -> V.

Definition expose_id (d : gmap string V) : option (gmap string V) :=
  v ← d !! "_id"; Some (<["id" := str v]> (delete "_id" d)).

Definition list_documents (docs : list (gmap string V)) : option (list (gmap string V)) :=
  mapM expose_id docs.

End Listing.

(** The store restricted to the orders dated at or after [start]. *)
Definition orders_from (start : Z) (db : Database) : Database :=
  {| order := orders_since start db; customer := customer db |}.

(** The last of the 14 entries of a series. *)
Definition today_entry (r : Overview) : option DayEntry := nth_error (timeseries r) 13.

Module Demo.

(** 2024-03-01 12:00:00 UTC. *)
Definition first_of_march : Z := 1709294400000.

Definition basket : Payload.t :=
  {| Payload.customer_id := None; Payload.customer_name := Some "Alice Johnson";
     Payload.items := [ Sample.item "p1" "Earbuds" (5999 # 100) 2;
                        Sample.item "p2" "Mouse" (49 # 1) 1 ];
     Payload.status := None |}.

(** A refund line: a negative price passes the item schema. *)
Definition refund : Payload.t :=
  {| Payload.customer_id := None; Payload.customer_name := None;
     Payload.items := [ Sample.item "p1" "Earbuds" (-(5999 # 100)) 1 ];
     Payload.status := Some "refunded" |}.

Definition new_id (collection : string) (o : Order) : string := "65f0"%string.

Definition basket_order : Order :=
  {| customer_id := None; customer_name := Some "Alice Johnson";
     items := Payload.items basket;
     total_amount := py_sum [ (5999 # 100) * inject_Z 2; (49 # 1) * inject_Z 1 ]%Q;
     status := "paid"; placed_at := Some (Sample.noon - Sample.hour) |}.

Definition with_basket : Database :=
  {| order := basket_order :: order Sample.two_today; customer := [] |}.

Definition draws : Draws :=
  {| picked := [ ({| pr_id := "a1"; pr_title := "Wireless Earbuds";
                     pr_price := Some (5999 # 100) |}, 3);
                 ({| pr_id := "a2"; pr_title := "Gaming Mouse";
                     pr_price := Some (49 # 1) |}, 1) ];
     chosen := Some {| cu_id := "c1"; cu_name := Some "Bob Smith" |};
     days_back := 29 |}.

Definition seeded : Database :=
  {| order := [ seed_order draws Sample.noon ]; customer := [] |}.

Definition stored : list (gmap string string) :=
  [ {[ "_id" := "65f0"; "name" := "Alice Johnson" ]};
    {[ "_id" := "65f1"; "name" := "Bob Smith"; "id" := "legacy" ]} ]%string.

End Demo.

(** ** Amounts as the code computes them: binary64 *)

(** The definitions above add and divide amounts exactly; they carry the
    properties that do not depend on rounding.  [Binary64] computes as the
    code does: a stored amount is a double, [$sum], [$multiply], [sum],
    [*] and [/] round every result to the nearest double, ties to even,
    and [round(x, 2)] is the double nearest to the exact value of [x]
    rounded half-even to hundredths.  A double is represented by its exact
    value in [Q]; an amount field that is not a double stands for the
    double nearest to it.  Amounts stay below the overflow threshold, so
    infinities and NaN do not occur. *)
Module Binary64.

Definition pow2 (e : Z) : Q := (2 # 1) ^ e.

(** [floor (log2 q)] for a positive [q]. *)
Definition floor_log2 (q : Q) : Z :=
  let k := Z.log2 (Qnum q) - Z.log2 (Zpos (Qden q)) in
  if Qle_bool (pow2 k) q then k else k - 1.

(** The exponent of the unit in the last place of the doubles around [q]:
    53 significant bits, subnormal below 2^-1022. *)
Definition exponent (q : Q) : Z := Z.max (-1074) (floor_log2 (Qabs q) - 52).

(** The double nearest to [q], ties to even. *)
Definition fl (q : Q) : Q :=
  Qred (inject_Z (Py.round_half_even (q / pow2 (exponent q))) * pow2 (exponent q)).

Definition add (a b : Q) : Q := fl (a + b).
Definition mul (a b : Q) : Q := fl (a * b).

(** A field read from a stored document. *)
Definition stored (q : Q) : Q := fl q.

(** [sum(xs)] and the [$sum] accumulator over doubles. *)
Definition sum (l : list Q) : Q := fold_left add l 0%Q.

(** [a / b], raising on a zero divisor. *)
Definition truediv (a b : Q) : Py.result Q :=
  if Qeq_bool b 0 then Py.Raise Py.ZeroDivisionError else Py.Ok (fl (a / b)).

(** [round(x, 2)] of a double. *)
Definition round2 (x : Q) : Q :=
  fl (Py.round_half_even (x * inject_Z 100) # 100).

(** ["revenue": {"$sum": "$total_amount"}, "orders": {"$count": {}}]. *)
Definition add_sale (a : Sales) (amount : Q) : Sales :=
  {| revenue := add (revenue a) (stored amount); orders := orders a + 1 |}.

Definition pipeline_window (start : Z) (docs : list Order) : list (unit * Sales) :=
  Mongo.group (fun _ => tt) no_sales (fun a o => add_sale a (total_amount o))
    (Mongo.match_placed_at_gte start docs).

(** ["quantity": {"$sum": "$items.quantity"},
     "revenue": {"$sum": {"$multiply": ["$items.price", "$items.quantity"]}}]. *)
Definition add_item (a : ProductSales) (it : OrderItem) : ProductSales :=
  {| sold_quantity := sold_quantity a + quantity it;
     sold_revenue :=
       add (sold_revenue a) (mul (stored (price it)) (inject_Z (quantity it))) |}.

Definition pipeline_top_products (now : Z) (docs : list Order)
    : list ((string * string) * ProductSales) :=
  Mongo.limit 5
    (Mongo.sort_by revenue_desc
       (Mongo.group item_key no_product_sales add_item
          (Mongo.unwind_items (Mongo.match_placed_at_gte (last_30 now) docs)))).

Definition top_product_row (p : (string * string) * ProductSales) : TopProduct :=
  {| tp_product_id := fst (fst p);
     tp_title := snd (fst p);
     tp_quantity := sold_quantity (snd p);
     tp_revenue := round2 (sold_revenue (snd p)) |}.

Definition pipeline_timeseries (now : Z) (docs : list Order)
    : list (option string * Sales) :=
  Mongo.sort_by id_asc
    (Mongo.group da_day no_sales (fun a d => add_sale a (da_total_amount d))
       (map project_day (Mongo.match_placed_at_gte (start_14 now) docs))).

(** [analytics_overview()], store handle and clock reading as parameters. *)
Definition analytics_overview (db : option Database) (now : Z) : Py.result Overview :=
  match db with
  | None => Py.Raise (Py.HTTPException 500 "Database not configured")
  | Some db =>
      let today := first_or_zero (pipeline_window (start_today now) (order db)) in
      let mtd := first_or_zero (pipeline_window (start_month now) (order db)) in
      avg_order_value ←
        (if Py.truthy (orders mtd)
         then q ← truediv (revenue mtd) (inject_Z (orders mtd)); mret (round2 q)
         else mret 0%Q);
      let top_products := map top_product_row (pipeline_top_products now (order db)) in
      let series := pipeline_timeseries now (order db) in
      let timeseries := map (day_entry (by_day series)) (days now) in
      let segments := map segment_row (pipeline_segments (customer db)) in
      mret {| today_revenue := round2 (Py.float (revenue today));
              today_orders := Py.int (orders today);
              mtd_revenue := round2 (Py.float (revenue mtd));
              mtd_orders := Py.int (orders mtd);
              avg_order_value := avg_order_value;
              top_products := top_products;
              timeseries := timeseries;
              segments := segments |}
  end.

(** [create_order(payload)] at the instant [now]; [create_document] as
    for [create_order] above. *)
Definition create_order (create_document : string -> Order -> string)
    (payload : Payload.t) (now : Z) : validated (string * Order) :=
  let total_amount :=
    sum (map (fun item => mul (stored (price item)) (inject_Z (quantity item)))
           (Payload.items payload)) in
  match Order_model
          {| customer_id := Payload.customer_id payload;
             customer_name := Payload.customer_name payload;
             items := Payload.items payload;
             total_amount := total_amount;
             status := Py.str_or (Payload.status payload) "paid";
             placed_at := Some now |} with
  | Valid order => Valid (create_document "order" order, order)
  | ValidationError loc => ValidationError loc
  end.

(** Vocabulary: the double sum of the stored totals of a list of orders,
    the double total of a line, the double revenue of a product group. *)
Definition revenue_of (os : list Order) : Q :=
  sum (map (fun o => stored (total_amount o)) os).

Definition line_total (it : OrderItem) : Q :=
  mul (stored (price it)) (inject_Z (quantity it)).

Definition group_revenue (k : string * string) (its : list OrderItem) : Q :=
  sum (map line_total (members item_key k its)).

(** [y] is [x] rounded to two decimals: the double nearest to a whole
    number of hundredths that is a closest one to [x]. *)
Definition rounded_to_cents (x y : Q) : Prop :=
  exists k : Z, y = fl (k # 100) /\ (Qabs ((k # 100) - x) <= 1 # 200)%Q.

(** What a ranking of the product groups of [its] has to satisfy, with
    revenues computed on doubles. *)
Record top_products_of (its : list OrderItem) (rows : list TopProduct) : Prop := {
  top_length : length rows = Nat.min 5 (distinct (map item_key its));
  top_nodup : List.NoDup (map row_key rows);
  top_rows : forall p, In p rows ->
    In (row_key p) (map item_key its) /\
    tp_quantity p = group_quantity (row_key p) its /\
    tp_revenue p = round2 (group_revenue (row_key p) its);
  top_sorted :
    StronglySorted
      (fun p q => (group_revenue (row_key q) its <= group_revenue (row_key p) its)%Q
                  /\ (tp_revenue q <= tp_revenue p)%Q) rows;
  top_best : forall k p, In k (map item_key its) -> ~ In k (map row_key rows) ->
    In p rows -> (group_revenue k its <= group_revenue (row_key p) its)%Q
}.

(** The row a product group is reported on. *)
Definition group_row (k : string * string) (its : list OrderItem) : TopProduct :=
  {| tp_product_id := fst k; tp_title := snd k;
     tp_quantity := group_quantity k its;
     tp_revenue := round2 (group_revenue k its) |}.

(** The status [create_order] stores: the one sent, ["paid"] when none or
    an empty one was sent. *)
Definition status_or_paid (s : option string) : string :=
  match s with
  | Some (String c s') => String c s'
  | Some EmptyString | None => "paid"
  end.

End Binary64.

Module Cents.

(** Two orders placed today, 0.10 and 0.20. *)
Definition dimes : Database :=
  {| order := [ Sample.placed [] (1 # 10) (Some (Sample.noon - Sample.hour));
                Sample.placed [] (2 # 10) (Some (Sample.noon - 2 * Sample.hour)) ];
     customer := [] |}.

(** Orders of 0.25 and 0.015 placed today. *)
Definition quarter : Database :=
  {| order := [ Sample.placed [] (25 # 100) (Some (Sample.noon - Sample.hour));
                Sample.placed [] (15 # 1000) (Some (Sample.noon - 2 * Sample.hour)) ];
     customer := [] |}.

(** One line of three items at half a cent. *)
Definition half_cent_line : Database :=
  {| order := [ Sample.placed [Sample.item "p1" "Sticker" (5 # 1000) 3] (15 # 1000)
                  (Some (Sample.noon - Sample.hour)) ];
     customer := [] |}.

(** 0.1 x 3 and a line of -0.30000000000000004: the double total is 0. *)
Definition cancelling : Payload.t :=
  {| Payload.customer_id := None; Payload.customer_name := None;
     Payload.items := [ Sample.item "p1" "Earbuds" (1 # 10) 3;
                        Sample.item "p2" "Voucher"
                          (- (30000000000000004 # 100000000000000000)) 1 ];
     Payload.status := Some "" |}.

End Cents.

(** * Properties *)

(** ** Calendar: ordinals and dates *)

Section CalendarFacts.
Import Calendar.

Lemma month_day_table :
  forallb (fun i => month_day_ok (Z.of_nat i) true && month_day_ok (Z.of_nat i) false)
    (seq 0 365) = true.
Proof. vm_compute. reflexivity. Qed.

Lemma month_day_spec n leap :
  0 <= n < 365 ->
  let '(m, d) := month_day n leap in
  1 <= m <= 12 /\ 1 <= d <= 31 /\
  table DAYS_BEFORE_MONTH m + b2z ((2 <? m) && leap) + d = n + 1.
Proof.
  intros Hn.
  assert (Hok : month_day_ok n leap = true).
  { pose proof month_day_table as Ht.
    rewrite forallb_forall in Ht.
    specialize (Ht (Z.to_nat n)).
    rewrite Z2Nat.id in Ht by lia.
    assert (Hin : In (Z.to_nat n) (seq 0 365)) by (apply in_seq; lia).
    apply Ht in Hin. apply andb_prop in Hin.
    destruct leap; tauto. }
  unfold month_day_ok in Hok.
  destruct (month_day n leap) as [m d].
  repeat (apply andb_prop in Hok; destruct Hok as [Hok ?]).
  lia.
Qed.

Lemma days_before_year_cycles a b c e :
  0 <= b <= 3 -> 0 <= c <= 24 -> 0 <= e <= 3 ->
  days_before_year (400 * a + 100 * b + 4 * c + e + 1)
  = DI400Y * a + DI100Y * b + DI4Y * c + 365 * e.
Proof.
  intros Hb Hc He. unfold days_before_year, DI400Y, DI100Y, DI4Y.
  cbv zeta. Z.to_euclidean_division_equations. lia.
Qed.

Lemma is_leap_cycles a b c e :
  0 <= b <= 3 -> 0 <= c <= 24 -> 0 <= e <= 3 ->
  is_leap (400 * a + 100 * b + 4 * c + e + 1)
  = (e =? 3) && (negb (c =? 24) || (b =? 3)).
Proof.
  intros Hb Hc He. unfold is_leap.
  repeat match goal with
         | |- context [?x =? ?y] => destruct (Z.eqb_spec x y)
         end; cbn; try reflexivity; exfalso;
    Z.to_euclidean_division_equations; lia.
Qed.

(** [date.fromordinal(n).toordinal() == n]. *)
Lemma ymd2ord_ord2ymd n :
  let '(y, m, d) := ord2ymd n in ymd2ord y m d = n.
Proof.
  unfold ord2ymd. cbv zeta.
  pose proof (Z.div_mod (n - 1) DI400Y ltac:(discriminate)) as E400.
  pose proof (Z.mod_pos_bound (n - 1) DI400Y ltac:(reflexivity)) as B400.
  set (a := (n - 1) / DI400Y) in *. set (r := (n - 1) mod DI400Y) in *.
  pose proof (Z.div_mod r DI100Y ltac:(discriminate)) as E100.
  pose proof (Z.mod_pos_bound r DI100Y ltac:(reflexivity)) as B100.
  set (b := r / DI100Y) in *. set (r2 := r mod DI100Y) in *.
  pose proof (Z.div_mod r2 DI4Y ltac:(discriminate)) as E4.
  pose proof (Z.mod_pos_bound r2 DI4Y ltac:(reflexivity)) as B4.
  set (c := r2 / DI4Y) in *. set (r3 := r2 mod DI4Y) in *.
  pose proof (Z.div_mod r3 365 ltac:(discriminate)) as E1.
  pose proof (Z.mod_pos_bound r3 365 ltac:(reflexivity)) as B1.
  set (e := r3 / 365) in *. set (r4 := r3 mod 365) in *.
  unfold DI400Y, DI100Y, DI4Y in E400, B400, E100, B100, E4, B4.
  assert (Hb : 0 <= b <= 4) by lia.
  assert (Hc : 0 <= c <= 24) by lia.
  assert (He : 0 <= e <= 4) by lia.
  destruct (Z.eqb_spec e 4) as [He4 | He4];
    [| destruct (Z.eqb_spec b 4) as [Hb4 | Hb4] ]; cbn [orb].
  - (* last day of a leap year inside a century *)
    assert (Hc' : c <= 23) by lia.
    unfold ymd2ord, days_before_month.
    replace (a * 400 + 1 + b * 100 + c * 4 + e - 1)
      with (400 * a + 100 * b + 4 * c + 3 + 1) by lia.
    rewrite days_before_year_cycles, is_leap_cycles by lia.
    destruct (Z.eqb_spec c 24); [lia |].
    change (table DAYS_BEFORE_MONTH 12) with 334.
    cbn. unfold DI400Y, DI100Y, DI4Y. lia.
  - (* last day of a 400-year cycle *)
    unfold ymd2ord, days_before_month.
    replace (a * 400 + 1 + b * 100 + c * 4 + e - 1)
      with (400 * a + 100 * 3 + 4 * 24 + 3 + 1) by lia.
    rewrite days_before_year_cycles, is_leap_cycles by lia.
    change (table DAYS_BEFORE_MONTH 12) with 334.
    cbn. unfold DI400Y, DI100Y, DI4Y. lia.
  - pose proof (month_day_spec r4
                  ((e =? 3) && (negb (c =? 24) || (b =? 3))) B1) as Hmd.
    destruct (month_day r4 _) as [m d].
    destruct Hmd as (Hm & Hd & Hsum).
    unfold ymd2ord, days_before_month.
    replace (a * 400 + 1 + b * 100 + c * 4 + e)
      with (400 * a + 100 * b + 4 * c + e + 1) by lia.
    rewrite days_before_year_cycles, is_leap_cycles by lia.
    unfold DI400Y, DI100Y, DI4Y. lia.
Qed.

Lemma ord2ymd_day_bounds n : 1 <= snd (ord2ymd n) <= 31.
Proof.
  unfold ord2ymd. cbv zeta.
  destruct ((_ =? 4) || (_ =? 4)); [cbn; lia |].
  match goal with
  | |- context [month_day ?k ?l] =>
      pose proof (month_day_spec k l) as Hmd; destruct (month_day k l) as [m d]
  end.
  cbn. apply Hmd. apply Z.mod_pos_bound. reflexivity.
Qed.

(** Adding whole days to a timestamp moves its date by as many days. *)
Lemma toordinal_add_days t k :
  toordinal (t + timedelta_days k) = toordinal t + k.
Proof.
  unfold toordinal, timedelta_days.
  rewrite Z.div_add by discriminate. lia.
Qed.

Lemma midnight_le t : midnight t <= t < midnight t + DAY_MS.
Proof.
  unfold midnight, DAY_MS. Z.to_euclidean_division_equations. lia.
Qed.

Lemma toordinal_midnight t : toordinal (midnight t) = toordinal t.
Proof.
  unfold toordinal, midnight. rewrite Z.div_mul by discriminate. reflexivity.
Qed.

(** [datetime(t.year, t.month, t.day)] is midnight of the day of [t]. *)
Lemma datetime_of_fields t :
  datetime (year t) (month t) (day t) = midnight t.
Proof.
  unfold datetime, year, month, day, midnight.
  pose proof (ymd2ord_ord2ymd (toordinal t)) as Hrt.
  destruct (ord2ymd (toordinal t)) as [[y m] d]. cbn.
  rewrite Hrt. unfold toordinal. f_equal. lia.
Qed.

(** [datetime(t.year, t.month, 1)] is midnight, [t.day - 1] days before
    the day of [t]. *)
Lemma datetime_first_of_month t :
  datetime (year t) (month t) 1 = midnight t - timedelta_days (day t - 1).
Proof.
  rewrite <- datetime_of_fields.
  unfold datetime, ymd2ord, timedelta_days. lia.
Qed.

Lemma day_bounds t : 1 <= day t <= 31.
Proof. apply ord2ymd_day_bounds. Qed.

End CalendarFacts.

(** ** Rounding *)

Section Rounding.
Import Py.
Local Open Scope Q_scope.

Lemma round_half_even_proper : Proper (Qeq ==> eq) round_half_even.
Proof.
  intros x y Hxy. unfold round_half_even. cbv zeta.
  rewrite (Qfloor_comp _ _ Hxy).
  assert (Hc : (x - inject_Z (Qfloor y) ?= 1 # 2) = (y - inject_Z (Qfloor y) ?= 1 # 2))
    by (now rewrite Hxy).
  now rewrite Hc.
Qed.

Lemma round2_proper : Proper (Qeq ==> eq) round2.
Proof.
  intros x y Hxy. unfold round2. f_equal. f_equal.
  apply round_half_even_proper. now rewrite Hxy.
Qed.

Lemma round_half_even_bounds q :
  (Qfloor q <= round_half_even q <= Qfloor q + 1)%Z.
Proof.
  unfold round_half_even. cbv zeta.
  destruct (_ ?= _); [destruct (Z.even _) | |]; lia.
Qed.

Lemma round_half_even_mono q1 q2 :
  q1 <= q2 -> (round_half_even q1 <= round_half_even q2)%Z.
Proof.
  intros Hle.
  pose proof (Qfloor_resp_le _ _ Hle) as Hf.
  destruct (Z.eq_dec (Qfloor q1) (Qfloor q2)) as [E | NE].
  - unfold round_half_even. cbv zeta. rewrite <- E.
    destruct (Qcompare_spec (q1 - inject_Z (Qfloor q1)) (1 # 2)) as [H1 | H1 | H1];
      destruct (Qcompare_spec (q2 - inject_Z (Qfloor q1)) (1 # 2)) as [H2 | H2 | H2];
      try (destruct (Z.even (Qfloor q1))); try lia; exfalso; lra.
  - pose proof (round_half_even_bounds q1).
    pose proof (round_half_even_bounds q2). lia.
Qed.

(** The rounded integer is a nearest one. *)
Lemma round_half_even_nearest q :
  Qabs (inject_Z (round_half_even q) - q) <= 1 # 2.
Proof.
  pose proof (Qfloor_le q) as Hlo.
  pose proof (Qlt_floor q) as Hhi.
  rewrite inject_Z_plus in Hhi. change (inject_Z 1) with 1 in Hhi.
  unfold round_half_even. cbv zeta.
  apply Qabs_Qle_condition.
  destruct (Qcompare_spec (q - inject_Z (Qfloor q)) (1 # 2)) as [H | H | H];
    [destruct (Z.even (Qfloor q)) | |];
    rewrite ?inject_Z_plus; change (inject_Z 1) with 1; split; lra.
Qed.

Lemma round2_mono q1 q2 : q1 <= q2 -> round2 q1 <= round2 q2.
Proof.
  intros Hle. unfold round2.
  apply Qmult_le_compat_r; [| discriminate].
  rewrite <- Zle_Qle. apply round_half_even_mono.
  apply Qmult_le_compat_r; [assumption | discriminate].
Qed.

(** [round2] yields a whole number of hundredths ... *)
Lemma round2_hundredths q : round2 q == round_half_even (q * inject_Z 100) # 100.
Proof.
  unfold round2. rewrite (Qmake_Qdiv _ 100). reflexivity.
Qed.

(** ... which is a closest one. *)
Lemma round2_nearest q : Qabs (round2 q - q) <= 1 # 200.
Proof.
  pose proof (round_half_even_nearest (q * inject_Z 100)) as Hn.
  apply Qabs_Qle_condition in Hn. apply Qabs_Qle_condition.
  unfold round2. change (inject_Z 100) with (100 # 1) in *.
  set (k := inject_Z (round_half_even (q * (100 # 1)))) in *.
  assert (Hk : k / (100 # 1) == k * (1 # 100)) by (now field).
  rewrite Hk. split; lra.
Qed.

Lemma round2_zero : round2 0 == 0.
Proof. reflexivity. Qed.

Lemma round2_nonneg q : 0 <= q -> 0 <= round2 q.
Proof. intros H. rewrite <- round2_zero. now apply round2_mono. Qed.

End Rounding.

(** ** Aggregation stages *)

Section GroupFacts.
Context {D K A : Type} `{EqDecision K}.
Variables (key : D -> K) (init : A) (step : A -> D -> A).

Lemma assoc_group_upd (k k' : K) (f : A -> A) (gs : list (K * A)) :
  assoc k' (Mongo.group_upd k f init gs)
  = if decide (k' = k) then Some (f (default init (assoc k gs))) else assoc k' gs.
Proof.
  induction gs as [| [k0 a0] gs IH]; cbn.
  - repeat case_decide; congruence.
  - destruct (decide (k = k0)) as [-> | Hne]; cbn.
    + repeat case_decide; congruence.
    + rewrite IH. repeat case_decide; congruence.
Qed.

Lemma keys_group_upd (k : K) (f : A -> A) (gs : list (K * A)) :
  (In k (map fst gs) /\ map fst (Mongo.group_upd k f init gs) = map fst gs)
  \/ (~ In k (map fst gs) /\ map fst (Mongo.group_upd k f init gs) = map fst gs ++ [k]).
Proof.
  induction gs as [| [k0 a0] gs IH]; cbn.
  - right. tauto.
  - destruct (decide (k = k0)) as [-> | Hne]; cbn.
    + left. tauto.
    + destruct IH as [[Hin ->] | [Hin ->]]; [left | right]; intuition congruence.
Qed.

Lemma group_snoc (docs : list D) (d : D) :
  Mongo.group key init step (docs ++ [d])
  = Mongo.group_upd (key d) (fun a => step a d) init (Mongo.group key init step docs).
Proof. unfold Mongo.group. now rewrite fold_left_app. Qed.

Lemma members_snoc (k : K) (docs : list D) (d : D) :
  members key k (docs ++ [d])
  = members key k docs ++ (if decide (key d = k) then [d] else []).
Proof.
  unfold members. rewrite List.filter_app. cbn.
  unfold bool_decide. now destruct (decide_rel eq (key d) k).
Qed.

(** The accumulator of a group is the fold over its members. *)
Lemma assoc_group (k : K) (docs : list D) :
  assoc k (Mongo.group key init step docs)
  = match members key k docs with
    | [] => None
    | _ :: _ => Some (fold_left step (members key k docs) init)
    end.
Proof.
  induction docs as [| d docs IH] using rev_ind; [reflexivity |].
  rewrite group_snoc, assoc_group_upd, members_snoc.
  destruct (decide (k = key d)) as [-> | Hne].
  - rewrite decide_True by reflexivity. rewrite IH, fold_left_app.
    destruct (members key (key d) docs) as [| m ms]; reflexivity.
  - rewrite decide_False by congruence. rewrite app_nil_r. exact IH.
Qed.

Lemma keys_group_NoDup (docs : list D) :
  List.NoDup (map fst (Mongo.group key init step docs)).
Proof.
  induction docs as [| d docs IH] using rev_ind; [constructor |].
  rewrite group_snoc.
  destruct (keys_group_upd (key d) (fun a => step a d)
              (Mongo.group key init step docs)) as [[Hin ->] | [Hin ->]];
    [exact IH |].
  apply List.NoDup_app; [exact IH | |].
  - constructor; [intros [] | constructor].
  - intros x Hx [<- | []]. contradiction.
Qed.

Lemma keys_group_In (k : K) (docs : list D) :
  In k (map fst (Mongo.group key init step docs)) <-> In k (map key docs).
Proof.
  induction docs as [| d docs IH] using rev_ind; [reflexivity |].
  rewrite group_snoc, map_app, in_app_iff. cbn.
  destruct (keys_group_upd (key d) (fun a => step a d)
              (Mongo.group key init step docs)) as [[Hin ->] | [Hin ->]];
    [| rewrite in_app_iff; cbn]; intuition congruence.
Qed.

Lemma group_length (docs : list D) :
  length (Mongo.group key init step docs) = distinct (map key docs).
Proof.
  unfold distinct. rewrite <- (length_map fst).
  apply Permutation_length, Permutation.NoDup_Permutation.
  - apply keys_group_NoDup.
  - apply List.NoDup_nodup.
  - intros k. rewrite nodup_In. apply keys_group_In.
Qed.

End GroupFacts.

Section AssocFacts.
Context {K A : Type} `{EqDecision K}.

Lemma assoc_In (k : K) (a : A) (gs : list (K * A)) :
  assoc k gs = Some a -> In (k, a) gs.
Proof.
  induction gs as [| [k0 a0] gs IH]; cbn; [discriminate |].
  case_decide; [intros [= ->]; subst; now left | auto].
Qed.

Lemma In_assoc (k : K) (a : A) (gs : list (K * A)) :
  List.NoDup (map fst gs) -> In (k, a) gs -> assoc k gs = Some a.
Proof.
  induction gs as [| [k0 a0] gs IH]; cbn; [contradiction |].
  intros Hnd [Heq | Hin]; inversion Hnd as [| ? ? Hnotin Hnd']; subst.
  - injection Heq as -> ->. now rewrite decide_True.
  - case_decide as Hk; [| auto]. subst.
    exfalso. apply Hnotin. now apply (in_map fst) in Hin.
Qed.

Lemma assoc_None (k : K) (gs : list (K * A)) :
  assoc k gs = None <-> ~ In k (map fst gs).
Proof.
  induction gs as [| [k0 a0] gs IH]; cbn; [tauto |].
  case_decide; [| rewrite IH]; intuition congruence.
Qed.

(** Reordering groups with distinct keys keeps every binding. *)
Lemma assoc_Permutation (k : K) (gs gs' : list (K * A)) :
  List.NoDup (map fst gs) -> Permutation gs gs' -> assoc k gs' = assoc k gs.
Proof.
  intros Hnd Hp.
  assert (Hnd' : List.NoDup (map fst gs'))
    by (eapply Permutation.Permutation_NoDup; [apply Permutation_map, Hp | exact Hnd]).
  destruct (assoc k gs) as [a |] eqn:E.
  - apply In_assoc; [exact Hnd' |].
    eapply Permutation_in; [exact Hp | now apply assoc_In].
  - apply assoc_None. apply assoc_None in E. intros Hin. apply E.
    eapply Permutation_in; [apply Permutation_map, Permutation_sym, Hp | exact Hin].
Qed.

End AssocFacts.

Section SortFacts.
Context {A : Type}.
Variable before : A -> A -> bool.

Lemma insert_by_Permutation (x : A) (l : list A) :
  Permutation (x :: l) (Mongo.insert_by before x l).
Proof.
  induction l as [| y l IH]; cbn; [reflexivity |].
  destruct (before x y); [reflexivity |].
  rewrite perm_swap. now constructor.
Qed.

Lemma sort_by_Permutation (l : list A) : Permutation l (Mongo.sort_by before l).
Proof.
  induction l as [| x l IH]; cbn; [reflexivity |].
  rewrite <- insert_by_Permutation. now constructor.
Qed.

Hypothesis before_total : forall x y, before x y = false -> before y x = true.
Hypothesis before_trans :
  forall x y z, before x y = true -> before y z = true -> before x z = true.

Lemma insert_by_sorted (x : A) (l : list A) :
  StronglySorted (fun a b => before a b = true) l ->
  StronglySorted (fun a b => before a b = true) (Mongo.insert_by before x l).
Proof.
  induction 1 as [| y l Hs IH Hall]; cbn.
  - repeat constructor.
  - destruct (before x y) eqn:E.
    + constructor; [now constructor |].
      constructor; [exact E |].
      eapply List.Forall_impl; [| exact Hall]. intros z Hz. now apply before_trans with y.
    + constructor; [exact IH |].
      eapply Permutation.Permutation_Forall; [apply insert_by_Permutation |].
      constructor; [now apply before_total | exact Hall].
Qed.

Lemma sort_by_sorted (l : list A) :
  StronglySorted (fun a b => before a b = true) (Mongo.sort_by before l).
Proof.
  induction l as [| x l IH]; cbn; [constructor | now apply insert_by_sorted].
Qed.

End SortFacts.

Section LimitFacts.
Context {A : Type}.
Variable R : A -> A -> Prop.

Lemma StronglySorted_app_inv (l1 l2 : list A) :
  StronglySorted R (l1 ++ l2) ->
  StronglySorted R l1 /\ forall x y, In x l1 -> In y l2 -> R x y.
Proof.
  induction l1 as [| a l1 IH]; cbn; intros Hs.
  - split; [constructor | contradiction].
  - inversion Hs as [| ? ? Hs' Hall]; subst.
    destruct (IH Hs') as [Hs1 Hcross].
    apply List.Forall_app in Hall. destruct Hall as [Hall1 Hall2].
    split; [constructor; assumption |].
    intros x y [<- | Hx] Hy; [| now apply Hcross].
    rewrite List.Forall_forall in Hall2. now apply Hall2.
Qed.

(** A limit of a sorted list is sorted and dominates what it drops. *)
Lemma limit_sorted (n : nat) (l : list A) :
  StronglySorted R l ->
  StronglySorted R (Mongo.limit n l) /\
  forall x y, In x (Mongo.limit n l) -> In y (skipn n l) -> R x y.
Proof.
  intros Hs. unfold Mongo.limit.
  rewrite <- (firstn_skipn n l) in Hs. now apply StronglySorted_app_inv.
Qed.

End LimitFacts.

(** ** The windowed revenue and order counts *)

Section WindowFacts.
Local Open Scope Q_scope.

Lemma fold_add_sale {D} (f : D -> Q) (l : list D) (s : Sales) :
  revenue (fold_left (fun a d => add_sale a (f d)) l s) == revenue s + sumQ (map f l)
  /\ orders (fold_left (fun a d => add_sale a (f d)) l s) = (orders s + count_of l)%Z.
Proof.
  revert s. induction l as [| d l IH]; intros s.
  - cbn. split; [ring | unfold count_of; cbn; lia].
  - cbn [fold_left map sumQ fold_right]. destruct (IH (add_sale s (f d))) as [Hr Ho].
    split.
    + rewrite Hr. cbn. fold (sumQ (map f l)). ring.
    + rewrite Ho. unfold count_of. cbn [add_sale orders length]. lia.
Qed.

Lemma match_placed_at_gte_since start docs :
  Mongo.match_placed_at_gte start docs = List.filter (placed_since start) docs.
Proof. reflexivity. Qed.

Lemma members_unit {D} (docs : list D) : members (fun _ => tt) tt docs = docs.
Proof.
  unfold members. induction docs as [| d docs IH]; [reflexivity |].
  cbn. now rewrite IH.
Qed.

Lemma first_or_zero_assoc (gs : list (unit * Sales)) :
  first_or_zero gs = default no_sales (assoc tt gs).
Proof. destruct gs as [| [[] a] gs]; reflexivity. Qed.

Lemma default_fold {D A} (step : A -> D -> A) (init : A) (l : list D) :
  default init (match l with
                | [] => None
                | _ :: _ => Some (fold_left step l init)
                end)
  = fold_left step l init.
Proof. destruct l; reflexivity. Qed.

(** The figures of a window: the sum and the number of the orders dated
    at or after its start, zero for both when there is none. *)
Lemma window_figures start docs :
  let sales := first_or_zero (pipeline_window start docs) in
  let matched := List.filter (placed_since start) docs in
  revenue sales == revenue_of matched /\ orders sales = count_of matched.
Proof.
  cbv zeta. unfold pipeline_window.
  rewrite first_or_zero_assoc, assoc_group, members_unit, match_placed_at_gte_since.
  rewrite default_fold.
  destruct (fold_add_sale total_amount (List.filter (placed_since start) docs) no_sales)
    as [Hr Ho].
  split.
  - rewrite Hr. unfold revenue_of. cbn. ring.
  - rewrite Ho. cbn. reflexivity.
Qed.

(** The same, for the rounded revenue the report shows. *)
Lemma window_fields start db :
  Py.round2 (revenue (first_or_zero (pipeline_window start (order db))))
  = Py.round2 (revenue_of (orders_since start db))
  /\ orders (first_or_zero (pipeline_window start (order db)))
     = count_of (orders_since start db).
Proof.
  destruct (window_figures start (order db)) as [Hrev Hord].
  split; [now apply round2_proper | exact Hord].
Qed.

Lemma count_of_nonneg {A} (l : list A) : (0 <= count_of l)%Z.
Proof. unfold count_of. lia. Qed.

Lemma start_today_midnight now : (start_today now = midnight now)%Z.
Proof. unfold start_today. exact (datetime_of_fields now). Qed.

Lemma start_month_first now :
  (start_month now = midnight now - Calendar.timedelta_days (Calendar.day now - 1))%Z.
Proof. unfold start_month. exact (datetime_first_of_month now). Qed.

Lemma start_month_le_today now : (start_month now <= start_today now)%Z.
Proof.
  rewrite start_month_first, start_today_midnight.
  pose proof (day_bounds now). unfold Calendar.timedelta_days, Calendar.DAY_MS. lia.
Qed.

(** The overview of a configured store always returns a report, whose
    fields are the expressions of the source. *)
Lemma analytics_overview_ok db now :
  exists r, analytics_overview (Some db) now = Py.Ok r
    /\ today_revenue r
       = Py.round2 (revenue (first_or_zero (pipeline_window (start_today now) (order db))))
    /\ today_orders r
       = orders (first_or_zero (pipeline_window (start_today now) (order db)))
    /\ mtd_revenue r
       = Py.round2 (revenue (first_or_zero (pipeline_window (start_month now) (order db))))
    /\ mtd_orders r
       = orders (first_or_zero (pipeline_window (start_month now) (order db)))
    /\ avg_order_value r
       = (let mtd := first_or_zero (pipeline_window (start_month now) (order db)) in
          if Py.truthy (orders mtd)
          then Py.round2 (revenue mtd / inject_Z (orders mtd)) else 0)
    /\ top_products r = map top_product_row (pipeline_top_products now (order db))
    /\ timeseries r
       = map (day_entry (by_day (pipeline_timeseries now (order db)))) (days now)
    /\ segments r = map segment_row (pipeline_segments (customer db)).
Proof.
  unfold analytics_overview. cbv zeta.
  set (mtd := first_or_zero (pipeline_window (start_month now) (order db))).
  unfold Py.truthy, Py.truediv.
  destruct (Z.eqb_spec (orders mtd) 0) as [E | NE]; cbn [negb].
  - eexists. split; [reflexivity |]. cbn. repeat split; reflexivity.
  - assert (Hq : Qeq_bool (inject_Z (orders mtd)) 0 = false).
    { apply not_true_is_false. intros Hq. apply Qeq_bool_eq in Hq.
      apply NE. unfold Qeq in Hq. cbn in Hq. lia. }
    rewrite Hq. eexists. split; [reflexivity |]. cbn. repeat split; reflexivity.
Qed.

End WindowFacts.

(** ** The product ranking *)

Section RankingFacts.
Local Open Scope Q_scope.

Lemma fold_add_item (l : list OrderItem) (s : ProductSales) :
  sold_quantity (fold_left add_item l s) = (sold_quantity s + sumZ (map quantity l))%Z
  /\ sold_revenue (fold_left add_item l s) == sold_revenue s + sumQ (map line_total l).
Proof.
  revert s. induction l as [| it l IH]; intros s.
  - cbn. split; [lia | ring].
  - cbn [fold_left map sumQ sumZ fold_right]. destruct (IH (add_item s it)) as [Hq Hr].
    split.
    + rewrite Hq. cbn [add_item sold_quantity]. fold (sumZ (map quantity l)). lia.
    + rewrite Hr. cbn [add_item sold_revenue]. fold (sumQ (map line_total l)).
      unfold line_total. ring.
Qed.

Lemma revenue_desc_true x y :
  revenue_desc x y = true <-> sold_revenue (snd y) <= sold_revenue (snd x).
Proof. unfold revenue_desc. apply Qle_bool_iff. Qed.

Lemma revenue_desc_total x y : revenue_desc x y = false -> revenue_desc y x = true.
Proof.
  intros Hf. apply revenue_desc_true.
  destruct (Qlt_le_dec (sold_revenue (snd x)) (sold_revenue (snd y))) as [Hlt | Hle].
  - now apply Qlt_le_weak.
  - apply revenue_desc_true in Hle. congruence.
Qed.

Lemma revenue_desc_trans x y z :
  revenue_desc x y = true -> revenue_desc y z = true -> revenue_desc x z = true.
Proof.
  rewrite !revenue_desc_true. intros Hxy Hyz. now apply Qle_trans with (sold_revenue (snd y)).
Qed.

Lemma StronglySorted_map {A B} (R : A -> A -> Prop) (R' : B -> B -> Prop)
    (f : A -> B) (l : list A) :
  (forall x y, In x l -> In y l -> R x y -> R' (f x) (f y)) ->
  StronglySorted R l -> StronglySorted R' (map f l).
Proof.
  intros Himp Hs. induction Hs as [| a l Hs IH Hall]; cbn; constructor.
  - apply IH. intros x y Hx Hy. apply Himp; now right.
  - rewrite List.Forall_forall in *. intros b Hb.
    apply in_map_iff in Hb. destruct Hb as (y & <- & Hy).
    apply Himp; [now left | now right | now apply Hall].
Qed.

Lemma limit_In {A} (n : nat) (l : list A) (x : A) : In x (Mongo.limit n l) -> In x l.
Proof.
  intros Hin. rewrite <- (firstn_skipn n l). apply in_or_app. now left.
Qed.

Variable its : list OrderItem.

Local Abbreviation groups := (Mongo.group item_key no_product_sales add_item its).
Local Abbreviation ranked := (Mongo.sort_by revenue_desc groups).

Lemma group_entry g :
  In g groups ->
  In (fst g) (map item_key its)
  /\ sold_quantity (snd g) = group_quantity (fst g) its
  /\ sold_revenue (snd g) == group_revenue (fst g) its.
Proof.
  intros Hin. destruct g as [k a]. cbn [fst snd].
  apply In_assoc in Hin; [| apply keys_group_NoDup].
  rewrite assoc_group in Hin.
  destruct (members item_key k its) as [| m ms] eqn:E; [discriminate |].
  injection Hin as <-.
  split.
  - assert (Hm : In m (members item_key k its)) by (rewrite E; now left).
    apply filter_In in Hm. destruct Hm as [Hm Hk].
    apply bool_decide_eq_true in Hk. subst k. now apply in_map.
  - unfold group_quantity, group_revenue. rewrite E.
    destruct (fold_add_item (m :: ms) no_product_sales) as [Hq Hr].
    cbn [fold_left] in Hq, Hr.
    split; [rewrite Hq; cbn; lia | rewrite Hr; cbn; ring].
Qed.

Lemma ranked_In g : In g ranked <-> In g groups.
Proof.
  split; intros Hin.
  - eapply Permutation_in; [apply Permutation_sym, sort_by_Permutation | exact Hin].
  - eapply Permutation_in; [apply sort_by_Permutation | exact Hin].
Qed.

Lemma ranked_keys_NoDup : List.NoDup (map fst ranked).
Proof.
  eapply Permutation.Permutation_NoDup;
    [apply Permutation_map, sort_by_Permutation | apply keys_group_NoDup].
Qed.

Lemma row_key_row g : row_key (top_product_row g) = fst g.
Proof. destruct g as [[pid t] a]. reflexivity. Qed.

(** The rows are the five best product groups of the items. *)
Lemma ranking_spec :
  top_products_of its (map top_product_row (Mongo.limit 5 ranked)).
Proof.
  pose proof (sort_by_sorted revenue_desc revenue_desc_total revenue_desc_trans groups)
    as Hsorted.
  destruct (limit_sorted _ 5 ranked Hsorted) as [Hlim Hcross].
  assert (Hgroups : forall g, In g (Mongo.limit 5 ranked) -> In g groups)
    by (intros g Hg; now apply ranked_In, (limit_In 5)).
  split.
  - rewrite length_map. unfold Mongo.limit. rewrite length_firstn.
    f_equal.
    rewrite <- (Permutation_length (sort_by_Permutation revenue_desc groups)).
    apply group_length.
  - rewrite map_map. rewrite (map_ext _ fst) by apply row_key_row.
    unfold Mongo.limit. rewrite <- firstn_map.
    apply (NoDup_app_remove_r _ (skipn 5 (map fst ranked))).
    rewrite firstn_skipn. apply ranked_keys_NoDup.
  - intros p Hp. apply in_map_iff in Hp. destruct Hp as (g & <- & Hg).
    rewrite row_key_row.
    destruct (group_entry g (Hgroups g Hg)) as (Hk & Hq & Hr).
    repeat split; [exact Hk | exact Hq |].
    cbn. now apply round2_proper.
  - eapply StronglySorted_map; [| exact Hlim].
    intros x y Hx Hy Hxy. apply revenue_desc_true in Hxy.
    rewrite !row_key_row.
    destruct (group_entry x (Hgroups x Hx)) as (_ & _ & Hrx).
    destruct (group_entry y (Hgroups y Hy)) as (_ & _ & Hry).
    split.
    + now rewrite <- Hrx, <- Hry.
    + cbn. now apply round2_mono.
  - intros k p Hk Hnot Hp.
    apply in_map_iff in Hp. destruct Hp as (g & <- & Hg).
    rewrite row_key_row.
    apply (keys_group_In item_key no_product_sales add_item) in Hk.
    apply in_map_iff in Hk. destruct Hk as (g' & Hfst & Hg').
    assert (Hskip : In g' (skipn 5 ranked)).
    { apply ranked_In in Hg'. rewrite <- (firstn_skipn 5 ranked) in Hg'.
      apply in_app_or in Hg'. destruct Hg' as [Hfirst | Hskip]; [| exact Hskip].
      exfalso. apply Hnot. rewrite map_map, (map_ext _ fst) by apply row_key_row.
      subst k. now apply in_map. }
    pose proof (Hcross g g' Hg Hskip) as Hle. apply revenue_desc_true in Hle.
    destruct (group_entry g (Hgroups g Hg)) as (_ & _ & Hrg).
    destruct (group_entry g' ltac:(now apply ranked_In, ranked_In)) as (_ & _ & Hrg').
    subst k. now rewrite <- Hrg, <- Hrg'.
Qed.

End RankingFacts.

(** ** The daily series *)

Section SeriesFacts.
Local Open Scope Q_scope.

Lemma fold_insert_lookup {K A} `{Countable K}
    (l : list (K * A)) (m : gmap K A) (k : K) :
  List.NoDup (map fst l) ->
  fold_left (fun m d => <[fst d := snd d]> m) l m !! k
  = match assoc k l with
    | Some a => Some a
    | None => m !! k
    end.
Proof.
  revert m. induction l as [| [k0 a0] l IH]; intros m Hnd; [reflexivity |].
  inversion Hnd as [| ? ? Hnotin Hnd']; subst.
  cbn [fold_left assoc fst snd]. rewrite IH by exact Hnd'.
  destruct (decide (k = k0)) as [-> | Hne].
  - apply assoc_None in Hnotin. rewrite Hnotin. apply lookup_insert_eq.
  - now rewrite lookup_insert_ne by congruence.
Qed.

Lemma by_day_lookup (series : list (option string * Sales)) (k : option string) :
  List.NoDup (map fst series) -> by_day series !! k = assoc k series.
Proof.
  intros Hnd. unfold by_day. rewrite fold_insert_lookup by exact Hnd.
  destruct (assoc k series); [reflexivity | apply lookup_empty].
Qed.

Lemma members_map {D E K} `{EqDecision K} (key : E -> K) (f : D -> E) (k : K)
    (l : list D) :
  members key k (map f l) = map f (members (fun d => key (f d)) k l).
Proof.
  unfold members. induction l as [| d l IH]; [reflexivity |].
  cbn. destruct (bool_decide (key (f d) = k)); cbn; now rewrite IH.
Qed.

Lemma members_day_key (d : string) (l : list Order) :
  members (fun o => da_day (project_day o)) (Some d) l = List.filter (placed_on d) l.
Proof.
  unfold members. apply List.filter_ext. intros o.
  unfold project_day, placed_on. cbn. destruct (placed_at o) as [t |]; cbn.
  - apply bool_decide_ext. split; congruence.
  - reflexivity.
Qed.

Lemma series_lookup now docs d :
  by_day (pipeline_timeseries now docs) !! Some d
  = match day_orders now d docs with
    | [] => None
    | _ :: _ =>
        Some (fold_left (fun a o => add_sale a (total_amount o))
                (day_orders now d docs) no_sales)
    end.
Proof.
  unfold pipeline_timeseries.
  set (groups := Mongo.group _ _ _ _).
  assert (Hnd : List.NoDup (map fst groups)) by apply keys_group_NoDup.
  rewrite by_day_lookup
    by (eapply Permutation.Permutation_NoDup;
        [apply Permutation_map, sort_by_Permutation | exact Hnd]).
  rewrite (assoc_Permutation _ groups) by (exact Hnd || apply sort_by_Permutation).
  unfold groups. rewrite assoc_group, members_map, members_day_key.
  rewrite match_placed_at_gte_since. fold (day_orders now d docs).
  destruct (day_orders now d docs) as [| o os]; [reflexivity |].
  f_equal. generalize (o :: os). intros l. generalize no_sales.
  induction l as [| x l IH]; intros s; [reflexivity | cbn; apply IH].
Qed.

(** An entry of the series carries the raw sum and the number of the
    orders its day aggregates. *)
Lemma day_entry_spec now docs d :
  let e := day_entry (by_day (pipeline_timeseries now docs)) d in
  ts_day e = d
  /\ ts_revenue e == revenue_of (day_orders now d docs)
  /\ ts_orders e = count_of (day_orders now d docs).
Proof.
  cbv zeta. unfold day_entry. cbn [ts_day ts_revenue ts_orders].
  rewrite series_lookup. unfold Py.float, Py.int.
  destruct (fold_add_sale total_amount (day_orders now d docs) no_sales) as [Hr Ho].
  destruct (day_orders now d docs) as [| o os] eqn:E.
  - repeat split; reflexivity.
  - cbn [fmap option_fmap option_map default from_option id].
    repeat split.
    + rewrite Hr. unfold revenue_of. cbn. ring.
    + rewrite Ho. cbn. reflexivity.
Qed.

Lemma day_entry_zero now docs d :
  day_orders now d docs = [] ->
  day_entry (by_day (pipeline_timeseries now docs)) d
  = {| ts_day := d; ts_revenue := 0; ts_orders := 0 |}.
Proof.
  intros E. unfold day_entry. now rewrite series_lookup, E.
Qed.

Lemma days_spec now :
  days now
  = map (fun i => Calendar.isoformat (Calendar.toordinal now - 13 + Z.of_nat i)%Z)
      (seq 0 14).
Proof.
  unfold days. apply map_ext. intros i.
  unfold Calendar.day_key, start_14. f_equal.
  replace (now - Calendar.timedelta_days 13 + Calendar.timedelta_days (Z.of_nat i))%Z
    with (now + Calendar.timedelta_days (Z.of_nat i - 13))%Z
    by (unfold Calendar.timedelta_days; lia).
  rewrite toordinal_add_days. lia.
Qed.

End SeriesFacts.

(** ** Day keys identify days *)

Section DayKeys.
Import Calendar.

Lemma ord2ymd_ranges n :
  1 <= n <= 3652059 ->
  let '(y, m, d) := ord2ymd n in
  1 <= y <= 9999 /\ 1 <= m <= 12 /\ 1 <= d <= 31.
Proof.
  intros Hn. unfold ord2ymd. cbv zeta.
  pose proof (Z.div_mod (n - 1) DI400Y ltac:(discriminate)) as E400.
  pose proof (Z.mod_pos_bound (n - 1) DI400Y ltac:(reflexivity)) as B400.
  set (a := (n - 1) / DI400Y) in *. set (r := (n - 1) mod DI400Y) in *.
  pose proof (Z.div_mod r DI100Y ltac:(discriminate)) as E100.
  pose proof (Z.mod_pos_bound r DI100Y ltac:(reflexivity)) as B100.
  set (b := r / DI100Y) in *. set (r2 := r mod DI100Y) in *.
  pose proof (Z.div_mod r2 DI4Y ltac:(discriminate)) as E4.
  pose proof (Z.mod_pos_bound r2 DI4Y ltac:(reflexivity)) as B4.
  set (c := r2 / DI4Y) in *. set (r3 := r2 mod DI4Y) in *.
  pose proof (Z.div_mod r3 365 ltac:(discriminate)) as E1.
  pose proof (Z.mod_pos_bound r3 365 ltac:(reflexivity)) as B1.
  set (e := r3 / 365) in *. set (r4 := r3 mod 365) in *.
  unfold DI400Y, DI100Y, DI4Y in E400, B400, E100, B100, E4, B4.
  assert (Ha : 0 <= a <= 24) by lia.
  assert (Hb : 0 <= b <= 4) by lia.
  assert (Hc : 0 <= c <= 24) by lia.
  assert (He : 0 <= e <= 4) by lia.
  destruct (Z.eqb_spec e 4) as [He4 | He4];
    [| destruct (Z.eqb_spec b 4) as [Hb4 | Hb4] ]; cbn [orb].
  - lia.
  - lia.
  - pose proof (month_day_spec r4
                  ((e =? 3) && (negb (c =? 24) || (b =? 3))) B1) as Hmd.
    destruct (month_day r4 _) as [m d]. lia.
Qed.

Lemma digit_inj a b :
  0 <= a <= 9 -> 0 <= b <= 9 -> digit a = digit b -> a = b.
Proof.
  intros Ha Hb Hd. unfold digit in Hd.
  rewrite !Z.mod_small in Hd by lia.
  apply (f_equal nat_of_ascii) in Hd.
  rewrite !nat_ascii_embedding in Hd by lia. lia.
Qed.

Lemma digit_mod n : digit n = digit (n mod 10).
Proof. unfold digit. now rewrite Z.mod_mod by discriminate. Qed.

Lemma digit_eq_mod a b : digit a = digit b -> a mod 10 = b mod 10.
Proof.
  rewrite (digit_mod a), (digit_mod b).
  pose proof (Z.mod_pos_bound a 10 ltac:(reflexivity)).
  pose proof (Z.mod_pos_bound b 10 ltac:(reflexivity)).
  apply digit_inj; lia.
Qed.

Lemma isoformat_ymd_inj y m d y' m' d' :
  0 <= y <= 9999 -> 0 <= m <= 99 -> 0 <= d <= 99 ->
  0 <= y' <= 9999 -> 0 <= m' <= 99 -> 0 <= d' <= 99 ->
  isoformat_ymd (y, m, d) = isoformat_ymd (y', m', d') ->
  (y, m, d) = (y', m', d').
Proof.
  intros Hy Hm Hd Hy' Hm' Hd' Heq.
  unfold isoformat_ymd, fmt04, fmt02 in Heq. cbn [String.append] in Heq.
  injection Heq as Y3 Y2 Y1 Y0 M1 M0 D1 D0.
  apply digit_eq_mod in Y3, Y2, Y1, Y0, M1, M0, D1, D0.
  assert (y = y') by (Z.to_euclidean_division_equations; lia).
  assert (m = m') by (Z.to_euclidean_division_equations; lia).
  assert (d = d') by (Z.to_euclidean_division_equations; lia).
  congruence.
Qed.

(** Within the range of dates, the ISO string determines the day. *)
Lemma isoformat_inj n n' :
  1 <= n <= 3652059 -> 1 <= n' <= 3652059 ->
  isoformat n = isoformat n' -> n = n'.
Proof.
  intros Hn Hn' Heq. unfold isoformat in Heq.
  pose proof (ord2ymd_ranges n Hn) as R.
  pose proof (ord2ymd_ranges n' Hn') as R'.
  pose proof (ymd2ord_ord2ymd n) as T.
  pose proof (ymd2ord_ord2ymd n') as T'.
  destruct (ord2ymd n) as [[y m] d], (ord2ymd n') as [[y' m'] d'].
  apply isoformat_ymd_inj in Heq; try lia.
  injection Heq as -> -> ->. congruence.
Qed.

(** An order that falls on a later day than the day of [start] is dated
    after [start]. *)
Lemma later_day_since start t :
  toordinal start < toordinal t -> start <= t.
Proof.
  unfold toordinal, DAY_MS. intros Hlt.
  Z.to_euclidean_division_equations. lia.
Qed.

End DayKeys.

(** ** Comparing windows, and what each pipeline reads *)

Section Comparison.
Local Open Scope Q_scope.

Lemma sumQ_nonneg (l : list Q) : Forall (fun q => 0 <= q) l -> 0 <= sumQ l.
Proof.
  induction 1 as [| q l Hq _ IH]; cbn; [apply Qle_refl |].
  fold (sumQ l). lra.
Qed.

Lemma filter_count_le {A} (p q : A -> bool) (l : list A) :
  (forall x, In x l -> p x = true -> q x = true) ->
  (count_of (List.filter p l) <= count_of (List.filter q l))%Z.
Proof.
  unfold count_of. induction l as [| x l IH]; intros Himp; [reflexivity |].
  assert (IH' := IH (fun y Hy => Himp y (or_intror Hy))).
  pose proof (Himp x (or_introl eq_refl)) as Hx.
  cbn. destruct (p x), (q x); cbn [length];
    solve [lia | discriminate (Hx eq_refl)].
Qed.

Lemma filter_sum_le {A} (f : A -> Q) (p q : A -> bool) (l : list A) :
  (forall x, In x l -> 0 <= f x) ->
  (forall x, In x l -> p x = true -> q x = true) ->
  sumQ (map f (List.filter p l)) <= sumQ (map f (List.filter q l)).
Proof.
  induction l as [| x l IH]; intros Hpos Himp; [apply Qle_refl |].
  assert (IH' := IH (fun y Hy => Hpos y (or_intror Hy))
                    (fun y Hy => Himp y (or_intror Hy))).
  pose proof (Himp x (or_introl eq_refl)) as Hx.
  pose proof (Hpos x (or_introl eq_refl)) as Hfx.
  cbn. destruct (p x), (q x); cbn [map sumQ fold_right];
    fold (sumQ (map f (List.filter p l))); fold (sumQ (map f (List.filter q l)));
    solve [lra | discriminate (Hx eq_refl)].
Qed.

Lemma placed_since_le (a b : Z) (o : Order) :
  (a <= b)%Z -> placed_since b o = true -> placed_since a o = true.
Proof.
  unfold placed_since. destruct (placed_at o); [| discriminate]. lia.
Qed.

(** When no order is dated after [now], the orders dated at or after
    [start] are those of the closed window [[start, now]]. *)
Lemma orders_since_within start now db :
  (forall o t, In o (order db) -> placed_at o = Some t -> (t <= now)%Z) ->
  orders_since start db = orders_within start now db.
Proof.
  intros Hpast. unfold orders_since, orders_within.
  apply List.filter_ext_in. intros o Hin.
  unfold placed_since, placed_within.
  destruct (placed_at o) as [t |] eqn:E; [| reflexivity].
  specialize (Hpast o t Hin E).
  destruct (Z.leb_spec start t), (Z.leb_spec t now); cbn; (reflexivity || lia).
Qed.

Lemma fold_left_over_map {A B C} (f : A -> C -> A) (h : B -> C) (l : list B) (a : A) :
  fold_left f (map h l) a = fold_left (fun a x => f a (h x)) l a.
Proof. revert a. induction l as [| x l IH]; intros a; [reflexivity | apply IH]. Qed.

Lemma fold_left_pointwise {A B} (f g : A -> B -> A) (l : list B) (a : A) :
  (forall a x, f a x = g a x) -> fold_left f l a = fold_left g l a.
Proof.
  intros Hfg. revert a. induction l as [| x l IH]; intros a; [reflexivity |].
  cbn. now rewrite Hfg, IH.
Qed.

Lemma filter_over_map {A B} (p : B -> bool) (h : A -> B) (l : list A) :
  List.filter p (map h l) = map h (List.filter (fun x => p (h x)) l).
Proof.
  induction l as [| x l IH]; [reflexivity |].
  cbn. destruct (p (h x)); cbn; now rewrite IH.
Qed.

Variable h : Order -> Order.
Hypothesis h_placed_at : forall o, placed_at (h o) = placed_at o.

Lemma match_over_map start docs :
  Mongo.match_placed_at_gte start (map h docs)
  = map h (Mongo.match_placed_at_gte start docs).
Proof.
  unfold Mongo.match_placed_at_gte. rewrite filter_over_map. f_equal.
  apply List.filter_ext. intros o. now rewrite h_placed_at.
Qed.

End Comparison.

(** ** Rounding to the nearest double *)

Section Binary64Rounding.
Local Open Scope Q_scope.

Lemma pow2_pos (e : Z) : 0 < Binary64.pow2 e.
Proof. apply Qpower_0_lt. reflexivity. Qed.

Lemma pow2_mono (a b : Z) : (a <= b)%Z -> Binary64.pow2 a <= Binary64.pow2 b.
Proof. intros H. apply Qpower_le_compat_l; [exact H | discriminate]. Qed.

Lemma pow2_lt_inv (a b : Z) : Binary64.pow2 a < Binary64.pow2 b -> (a < b)%Z.
Proof. intros H. apply (Qpower_lt_compat_l_inv (2 # 1)); [exact H | reflexivity]. Qed.

Lemma pow2_of_Z (z : Z) : (0 <= z)%Z -> Binary64.pow2 z == inject_Z (2 ^ z).
Proof. intros H. unfold Binary64.pow2. now rewrite Zpower_Qpower. Qed.

Lemma pow2_sub (a b : Z) : Binary64.pow2 (a - b) == Binary64.pow2 a / Binary64.pow2 b.
Proof. apply Qpower_minus. discriminate. Qed.

(** A positive rational lies between the powers of two that the binary
    logarithms of its numerator and denominator give. *)
Lemma log2_bounds (q : Q) :
  0 < q ->
  Binary64.pow2 (Z.log2 (Qnum q) - Z.log2 (Zpos (Qden q)) - 1) <= q
  /\ q < Binary64.pow2 (Z.log2 (Qnum q) - Z.log2 (Zpos (Qden q)) + 1).
Proof.
  intros Hq. destruct q as [n d]. cbn [Qnum Qden].
  assert (Hn : (0 < n)%Z) by (unfold Qlt in Hq; cbn in Hq; lia).
  pose proof (Z.log2_spec n Hn) as [Hn1 Hn2].
  pose proof (Z.log2_spec (Zpos d) ltac:(lia)) as [Hd1 Hd2].
  pose proof (Z.log2_nonneg n) as Hln.
  pose proof (Z.log2_nonneg (Zpos d)) as Hld.
  set (ln := Z.log2 n) in *. set (ld := Z.log2 (Zpos d)) in *.
  replace (ln - ld - 1)%Z with (ln - (ld + 1))%Z by lia.
  replace (ln - ld + 1)%Z with ((ln + 1) - ld)%Z by lia.
  rewrite !pow2_sub, !pow2_of_Z by lia.
  rewrite <- Z.add_1_r in Hn2, Hd2.
  assert (P1 : (0 < 2 ^ ln)%Z) by (apply Z.pow_pos_nonneg; lia).
  assert (P2 : (0 < 2 ^ ld)%Z) by (apply Z.pow_pos_nonneg; lia).
  assert (P3 : (0 < 2 ^ (ld + 1))%Z) by (apply Z.pow_pos_nonneg; lia).
  assert (P4 : (0 < 2 ^ (ln + 1))%Z) by (apply Z.pow_pos_nonneg; lia).
  remember (2 ^ ln)%Z as A. remember (2 ^ ld)%Z as B.
  remember (2 ^ (ld + 1))%Z as C. remember (2 ^ (ln + 1))%Z as D.
  clear HeqA HeqB HeqC HeqD. clearbody ln ld.
  split.
  - apply Qle_shift_div_r; [change 0 with (inject_Z 0); rewrite <- Zlt_Qlt; lia |].
    unfold Qle, Qmult, inject_Z. cbn [Qnum Qden].
    rewrite Pos.mul_1_r, !Z.mul_1_r.
    apply Z.le_trans with (n * Zpos d)%Z; [apply Z.mul_le_mono_nonneg_r; lia |].
    apply Z.mul_le_mono_nonneg_l; lia.
  - apply Qlt_shift_div_l; [change 0 with (inject_Z 0); rewrite <- Zlt_Qlt; lia |].
    unfold Qlt, Qmult, inject_Z. cbn [Qnum Qden].
    rewrite Pos.mul_1_r, !Z.mul_1_r.
    apply Z.le_lt_trans with (n * Zpos d)%Z; [apply Z.mul_le_mono_nonneg_l; lia |].
    apply Z.mul_lt_mono_pos_r; lia.
Qed.

Lemma floor_log2_spec (q : Q) :
  0 < q ->
  Binary64.pow2 (Binary64.floor_log2 q) <= q
  /\ q < Binary64.pow2 (Binary64.floor_log2 q + 1).
Proof.
  intros Hq. destruct (log2_bounds q Hq) as [Hlo Hhi].
  unfold Binary64.floor_log2. cbv zeta.
  set (k := (Z.log2 (Qnum q) - Z.log2 (Zpos (Qden q)))%Z) in *.
  destruct (Qle_bool (Binary64.pow2 k) q) eqn:E.
  - apply Qle_bool_iff in E. split; assumption.
  - split; [exact Hlo |].
    replace (k - 1 + 1)%Z with k by lia.
    apply Qnot_le_lt. intros Hle. apply Qle_bool_iff in Hle. congruence.
Qed.

Lemma floor_log2_mono (a b : Q) :
  0 < a -> a <= b -> (Binary64.floor_log2 a <= Binary64.floor_log2 b)%Z.
Proof.
  intros Ha Hab.
  destruct (floor_log2_spec a Ha) as [Ha1 _].
  destruct (floor_log2_spec b ltac:(lra)) as [_ Hb2].
  assert (Hlt : Binary64.pow2 (Binary64.floor_log2 a)
                < Binary64.pow2 (Binary64.floor_log2 b + 1)) by lra.
  apply pow2_lt_inv in Hlt. lia.
Qed.

Lemma round_half_even_Z (z : Z) : Py.round_half_even (inject_Z z) = z.
Proof.
  unfold Py.round_half_even. cbv zeta. rewrite Qfloor_Z.
  destruct (Qcompare_spec (inject_Z z - inject_Z z) (1 # 2)) as [H | H | H];
    [exfalso; lra | reflexivity | exfalso; lra].
Qed.

Lemma round_half_even_le_Z (x : Q) (z : Z) :
  x <= inject_Z z -> (Py.round_half_even x <= z)%Z.
Proof.
  intros H. rewrite <- (round_half_even_Z z). now apply round_half_even_mono.
Qed.

Lemma round_half_even_ge_Z (x : Q) (z : Z) :
  inject_Z z <= x -> (z <= Py.round_half_even x)%Z.
Proof.
  intros H. rewrite <- (round_half_even_Z z). now apply round_half_even_mono.
Qed.

(** The rounded integer is within a half of the number, and even when
    exactly a half away; it is the only such integer. *)
Lemma round_half_even_char (x : Q) :
  - (1 # 2) < x - inject_Z (Py.round_half_even x) < 1 # 2
  \/ ((x - inject_Z (Py.round_half_even x) == 1 # 2
       \/ x - inject_Z (Py.round_half_even x) == - (1 # 2))
      /\ Z.even (Py.round_half_even x) = true).
Proof.
  pose proof (Qfloor_le x) as Hlo. pose proof (Qlt_floor x) as Hhi.
  rewrite inject_Z_plus in Hhi. change (inject_Z 1) with 1 in Hhi.
  unfold Py.round_half_even. cbv zeta.
  destruct (Qcompare_spec (x - inject_Z (Qfloor x)) (1 # 2)) as [H | H | H].
  - destruct (Z.even (Qfloor x)) eqn:E.
    + right. split; [now left | exact E].
    + right. rewrite inject_Z_plus. change (inject_Z 1) with 1. split.
      * right. lra.
      * rewrite Z.even_add, E. reflexivity.
  - left. lra.
  - left. rewrite inject_Z_plus. change (inject_Z 1) with 1. lra.
Qed.

Lemma round_half_even_unique (x : Q) (k : Z) :
  - (1 # 2) < x - inject_Z k < 1 # 2
  \/ ((x - inject_Z k == 1 # 2 \/ x - inject_Z k == - (1 # 2)) /\ Z.even k = true) ->
  Py.round_half_even x = k.
Proof.
  intros Hk. pose proof (round_half_even_char x) as Hr.
  set (r := Py.round_half_even x) in *.
  assert (Hdiff : forall a b : Z,
             inject_Z a - inject_Z b < 1 -> - (1) < inject_Z a - inject_Z b -> a = b).
  { intros a b H1 H2.
    assert (H1' : inject_Z (a - b) < inject_Z 1)
      by (unfold Z.sub; rewrite inject_Z_plus, inject_Z_opp; change (inject_Z 1) with 1; lra).
    assert (H2' : inject_Z (-1) < inject_Z (a - b))
      by (unfold Z.sub; rewrite inject_Z_plus, inject_Z_opp;
          change (inject_Z (-1)) with (- (1)); lra).
    rewrite <- Zlt_Qlt in H1', H2'. lia. }
  assert (Hnear : forall a b : Z,
             inject_Z a - inject_Z b == 1 -> Z.even a = true -> Z.even b = true -> False).
  { intros a b H1 Ea Eb.
    assert (H1' : inject_Z (a - b) == inject_Z 1)
      by (unfold Z.sub; rewrite inject_Z_plus, inject_Z_opp; exact H1).
    unfold Qeq, inject_Z in H1'. cbn [Qnum Qden] in H1'.
    assert (a = (b + 1)%Z) by lia. subst a.
    rewrite Z.even_add, Eb in Ea. discriminate. }
  destruct Hr as [Hr | [[Hr | Hr] Er]], Hk as [Hk | [[Hk | Hk] Ek]];
    try (apply Hdiff; lra).
  - exfalso. apply (Hnear k r); [lra | assumption | assumption].
  - exfalso. apply (Hnear r k); [lra | assumption | assumption].
Qed.

Lemma round_half_even_opp (x : Q) :
  Py.round_half_even (- x) = (- Py.round_half_even x)%Z.
Proof.
  apply round_half_even_unique. rewrite inject_Z_opp.
  destruct (round_half_even_char x) as [H | [[H | H] E]].
  - left. lra.
  - right. split; [right; lra | now rewrite Z.even_opp].
  - right. split; [left; lra | now rewrite Z.even_opp].
Qed.

(** The unit in the last place of a positive number. *)
Lemma exponent_spec (a : Q) :
  0 < a ->
  a < Binary64.pow2 (Binary64.exponent a + 53)
  /\ (Binary64.exponent a = (-1074)%Z
      \/ Binary64.pow2 (Binary64.exponent a + 52) <= a).
Proof.
  intros Ha. unfold Binary64.exponent.
  assert (Habs : Qabs a == a) by (apply Qabs_pos; lra).
  assert (Hfl : Binary64.floor_log2 (Qabs a) = Binary64.floor_log2 a).
  { destruct a as [n d]. unfold Qlt in Ha. cbn in Ha.
    destruct n; try lia. reflexivity. }
  rewrite Hfl. destruct (floor_log2_spec a Ha) as [Hlo Hhi].
  set (l := Binary64.floor_log2 a) in *.
  destruct (Z.max_spec (-1074) (l - 52)) as [[Hlt ->] | [Hge ->]].
  - split; [| right; now replace (l - 52 + 52)%Z with l by lia].
    now replace (l - 52 + 53)%Z with (l + 1)%Z by lia.
  - split; [| now left].
    eapply Qlt_le_trans; [exact Hhi |]. apply pow2_mono. lia.
Qed.

Lemma exponent_mono (a b : Q) :
  0 < a -> a <= b -> (Binary64.exponent a <= Binary64.exponent b)%Z.
Proof.
  intros Ha Hab. unfold Binary64.exponent.
  assert (Hle : (Binary64.floor_log2 (Qabs a) <= Binary64.floor_log2 (Qabs b))%Z).
  { destruct a as [n d], b as [n' d'].
    unfold Qlt, Qle in *. cbn in Ha, Hab.
    destruct n; try lia. destruct n'; try lia.
    apply floor_log2_mono; unfold Qlt, Qle; cbn; lia. }
  lia.
Qed.

Lemma fl_value (q : Q) :
  Binary64.fl q
  == inject_Z (Py.round_half_even (q / Binary64.pow2 (Binary64.exponent q)))
     * Binary64.pow2 (Binary64.exponent q).
Proof. unfold Binary64.fl. apply Qred_correct. Qed.

Lemma fl_nonneg (q : Q) : 0 <= q -> 0 <= Binary64.fl q.
Proof.
  intros Hq. rewrite fl_value.
  pose proof (pow2_pos (Binary64.exponent q)) as Hp.
  apply Qmult_le_0_compat; [| lra].
  change 0 with (inject_Z 0). rewrite <- Zle_Qle.
  apply round_half_even_ge_Z. change (inject_Z 0) with 0.
  apply Qle_shift_div_l; [exact Hp | lra].
Qed.

Lemma fl_mono_pos (a b : Q) : 0 < a -> a <= b -> Binary64.fl a <= Binary64.fl b.
Proof.
  intros Ha Hab. rewrite !fl_value.
  pose proof (exponent_mono a b Ha Hab) as He.
  destruct (exponent_spec a Ha) as [Ha_hi _].
  destruct (exponent_spec b ltac:(lra)) as [_ Hb_lo].
  set (ea := Binary64.exponent a) in *. set (eb := Binary64.exponent b) in *.
  pose proof (pow2_pos ea) as Hpa. pose proof (pow2_pos eb) as Hpb.
  destruct (Z.eq_dec ea eb) as [E | NE].
  - rewrite <- E. apply Qmult_le_r; [exact Hpa |].
    rewrite <- Zle_Qle. apply round_half_even_mono.
    apply Qmult_le_r; [now apply Qinv_lt_0_compat | exact Hab].
  - destruct Hb_lo as [Hmin | Hb_lo].
    { exfalso. unfold ea, eb, Binary64.exponent in *. lia. }
    apply Qle_trans with (Binary64.pow2 (ea + 53)).
    + assert (Hk : (Py.round_half_even (a / Binary64.pow2 ea) <= 2 ^ 53)%Z).
      { apply round_half_even_le_Z. rewrite <- pow2_of_Z by lia.
        apply Qle_shift_div_r; [exact Hpa |].
        unfold Binary64.pow2 in *. rewrite <- Qpower_plus by discriminate.
        rewrite Z.add_comm. now apply Qlt_le_weak. }
      rewrite Zle_Qle in Hk. rewrite <- pow2_of_Z in Hk by lia.
      unfold Binary64.pow2 in *. rewrite (Z.add_comm ea), Qpower_plus by discriminate.
      apply Qmult_le_r; [exact Hpa | exact Hk].
    + apply Qle_trans with (Binary64.pow2 (eb + 52)); [apply pow2_mono; lia |].
      assert (Hk : (2 ^ 52 <= Py.round_half_even (b / Binary64.pow2 eb))%Z).
      { apply round_half_even_ge_Z. rewrite <- pow2_of_Z by lia.
        apply Qle_shift_div_l; [exact Hpb |].
        unfold Binary64.pow2 in *. rewrite <- Qpower_plus by discriminate.
        now rewrite Z.add_comm. }
      rewrite Zle_Qle in Hk. rewrite <- pow2_of_Z in Hk by lia.
      unfold Binary64.pow2 in *. rewrite (Z.add_comm eb), Qpower_plus by discriminate.
      apply Qmult_le_r; [exact Hpb | exact Hk].
Qed.

Lemma exponent_opp (q : Q) : Binary64.exponent (- q) = Binary64.exponent q.
Proof.
  unfold Binary64.exponent. destruct q as [[| n | n] d]; reflexivity.
Qed.

Lemma fl_opp (q : Q) : Binary64.fl (- q) == - Binary64.fl q.
Proof.
  rewrite !fl_value, exponent_opp.
  assert (Hdiv : - q / Binary64.pow2 (Binary64.exponent q)
                 == - (q / Binary64.pow2 (Binary64.exponent q)))
    by (unfold Qdiv; ring).
  rewrite (round_half_even_proper _ _ Hdiv), round_half_even_opp, inject_Z_opp.
  ring.
Qed.

(** Rounding to the nearest double is monotone. *)
Lemma fl_mono (a b : Q) : a <= b -> Binary64.fl a <= Binary64.fl b.
Proof.
  intros Hab.
  destruct (Qlt_le_dec 0 a) as [Ha | Ha].
  - now apply fl_mono_pos.
  - destruct (Qlt_le_dec b 0) as [Hb | Hb].
    + assert (H : Binary64.fl (- b) <= Binary64.fl (- a))
        by (apply fl_mono_pos; lra).
      rewrite !fl_opp in H. lra.
    + apply Qle_trans with 0; [| now apply fl_nonneg].
      assert (H : 0 <= Binary64.fl (- a)) by (apply fl_nonneg; lra).
      rewrite fl_opp in H. lra.
Qed.

Lemma round2_b64_mono (x y : Q) : x <= y -> Binary64.round2 x <= Binary64.round2 y.
Proof.
  intros Hxy. unfold Binary64.round2. apply fl_mono.
  rewrite !(Qmake_Qdiv _ 100).
  apply Qmult_le_compat_r; [| discriminate].
  rewrite <- Zle_Qle. apply round_half_even_mono.
  apply Qmult_le_compat_r; [assumption | discriminate].
Qed.

(** [round2] rounds to two decimals. *)
Lemma round2_b64_rounded (x : Q) : Binary64.rounded_to_cents x (Binary64.round2 x).
Proof.
  exists (Py.round_half_even (x * inject_Z 100)). split; [reflexivity |].
  rewrite <- round2_hundredths. apply round2_nearest.
Qed.

End Binary64Rounding.

(** ** The overview on doubles *)

Opaque Binary64.fl.

Section Binary64Overview.
Local Open Scope Q_scope.

Lemma b64_fold_add_sale {D} (f : D -> Q) (l : list D) (s : Sales) :
  revenue (fold_left (fun a d => Binary64.add_sale a (f d)) l s)
  = fold_left Binary64.add (map (fun d => Binary64.stored (f d)) l) (revenue s)
  /\ orders (fold_left (fun a d => Binary64.add_sale a (f d)) l s)
     = (orders s + count_of l)%Z.
Proof.
  revert s. induction l as [| d l IH]; intros s.
  - cbn. split; [reflexivity | unfold count_of; cbn; lia].
  - cbn [fold_left map]. destruct (IH (Binary64.add_sale s (f d))) as [Hr Ho].
    split; [exact Hr |].
    rewrite Ho. unfold count_of. cbn [Binary64.add_sale orders length]. lia.
Qed.

(** The figures of a window: the double sum and the number of the orders
    dated at or after its start. *)
Lemma b64_window_figures start db :
  revenue (first_or_zero (Binary64.pipeline_window start (order db)))
  = Binary64.revenue_of (orders_since start db)
  /\ orders (first_or_zero (Binary64.pipeline_window start (order db)))
     = count_of (orders_since start db).
Proof.
  unfold Binary64.pipeline_window.
  rewrite first_or_zero_assoc, assoc_group, members_unit, match_placed_at_gte_since.
  rewrite default_fold. fold (orders_since start db).
  destruct (b64_fold_add_sale total_amount (orders_since start db) no_sales) as [Hr Ho].
  split; [exact Hr | rewrite Ho; cbn; reflexivity].
Qed.

Lemma b64_fold_add_item (l : list OrderItem) (s : ProductSales) :
  sold_quantity (fold_left Binary64.add_item l s)
  = (sold_quantity s + sumZ (map quantity l))%Z
  /\ sold_revenue (fold_left Binary64.add_item l s)
     = fold_left Binary64.add (map Binary64.line_total l) (sold_revenue s).
Proof.
  revert s. induction l as [| it l IH]; intros s.
  - cbn. split; [lia | reflexivity].
  - cbn [fold_left map sumZ fold_right]. destruct (IH (Binary64.add_item s it)) as [Hq Hr].
    split; [| exact Hr].
    rewrite Hq. cbn [Binary64.add_item sold_quantity]. fold (sumZ (map quantity l)). lia.
Qed.

Lemma b64_row_key_row g : row_key (Binary64.top_product_row g) = fst g.
Proof. destruct g as [[pid t] a]. reflexivity. Qed.

Lemma b64_group_entry (its : list OrderItem) g :
  In g (Mongo.group item_key no_product_sales Binary64.add_item its) ->
  In (fst g) (map item_key its)
  /\ sold_quantity (snd g) = group_quantity (fst g) its
  /\ sold_revenue (snd g) = Binary64.group_revenue (fst g) its.
Proof.
  intros Hin. destruct g as [k a]. cbn [fst snd].
  apply In_assoc in Hin; [| apply keys_group_NoDup].
  rewrite assoc_group in Hin.
  destruct (b64_fold_add_item (members item_key k its) no_product_sales) as [Hq Hr].
  destruct (members item_key k its) as [| m ms] eqn:E; [discriminate |].
  apply (inj Some) in Hin. subst a. rewrite <- E in *. split.
  - assert (Hm : In m (members item_key k its)) by (rewrite E; now left).
    apply filter_In in Hm. destruct Hm as [Hm Hk].
    apply bool_decide_eq_true in Hk. subst k. now apply in_map.
  - unfold group_quantity, Binary64.group_revenue.
    split; [rewrite Hq; cbn; lia | exact Hr].
Qed.

(** The rows are the five best product groups of the items. *)
Lemma b64_ranking_spec (its : list OrderItem) :
  Binary64.top_products_of its
    (map Binary64.top_product_row
       (Mongo.limit 5
          (Mongo.sort_by revenue_desc
             (Mongo.group item_key no_product_sales Binary64.add_item its)))).
Proof.
  set (groups := Mongo.group item_key no_product_sales Binary64.add_item its).
  set (ranked := Mongo.sort_by revenue_desc groups).
  pose proof (sort_by_sorted revenue_desc revenue_desc_total revenue_desc_trans groups)
    as Hsorted.
  fold ranked in Hsorted.
  destruct (limit_sorted _ 5 ranked Hsorted) as [Hlim Hcross].
  assert (Hranked : forall g, In g ranked <-> In g groups).
  { intros g. split; intros Hin.
    - eapply Permutation_in; [apply Permutation_sym, sort_by_Permutation | exact Hin].
    - eapply Permutation_in; [apply sort_by_Permutation | exact Hin]. }
  assert (Hgroups : forall g, In g (Mongo.limit 5 ranked) -> In g groups)
    by (intros g Hg; now apply Hranked, (limit_In 5)).
  split.
  - rewrite length_map. unfold Mongo.limit. rewrite length_firstn.
    f_equal. unfold ranked.
    rewrite <- (Permutation_length (sort_by_Permutation revenue_desc groups)).
    apply group_length.
  - rewrite map_map. rewrite (map_ext _ fst) by apply b64_row_key_row.
    unfold Mongo.limit. rewrite <- firstn_map.
    apply (NoDup_app_remove_r _ (skipn 5 (map fst ranked))).
    rewrite firstn_skipn.
    eapply Permutation.Permutation_NoDup;
      [apply Permutation_map, sort_by_Permutation | apply keys_group_NoDup].
  - intros p Hp. apply in_map_iff in Hp. destruct Hp as (g & <- & Hg).
    rewrite b64_row_key_row.
    destruct (b64_group_entry its g (Hgroups g Hg)) as (Hk & Hq & Hr).
    repeat split; [exact Hk | exact Hq |].
    cbn. now rewrite Hr.
  - eapply StronglySorted_map; [| exact Hlim].
    intros x y Hx Hy Hxy. apply revenue_desc_true in Hxy.
    rewrite !b64_row_key_row.
    destruct (b64_group_entry its x (Hgroups x Hx)) as (_ & _ & Hrx).
    destruct (b64_group_entry its y (Hgroups y Hy)) as (_ & _ & Hry).
    split.
    + now rewrite <- Hrx, <- Hry.
    + cbn. now apply round2_b64_mono.
  - intros k p Hk Hnot Hp.
    apply in_map_iff in Hp. destruct Hp as (g & <- & Hg).
    rewrite b64_row_key_row.
    apply (keys_group_In item_key no_product_sales Binary64.add_item) in Hk.
    apply in_map_iff in Hk. destruct Hk as (g' & Hfst & Hg').
    fold groups in Hg'.
    assert (Hskip : In g' (skipn 5 ranked)).
    { apply Hranked in Hg'. rewrite <- (firstn_skipn 5 ranked) in Hg'.
      apply in_app_or in Hg'. destruct Hg' as [Hfirst | Hskip]; [| exact Hskip].
      exfalso. apply Hnot. rewrite map_map, (map_ext _ fst) by apply b64_row_key_row.
      subst k. now apply in_map. }
    pose proof (Hcross g g' Hg Hskip) as Hle. apply revenue_desc_true in Hle.
    destruct (b64_group_entry its g (Hgroups g Hg)) as (_ & _ & Hrg).
    destruct (b64_group_entry its g' ltac:(now apply Hranked, Hranked)) as (_ & _ & Hrg').
    subst k. now rewrite <- Hrg, <- Hrg'.
Qed.

(** With at most five product groups every group is on a row. *)
Lemma b64_ranking_complete (its : list OrderItem) (k : string * string) :
  (distinct (map item_key its) <= 5)%nat ->
  In k (map item_key its) ->
  In (Binary64.group_row k its)
    (map Binary64.top_product_row
       (Mongo.limit 5
          (Mongo.sort_by revenue_desc
             (Mongo.group item_key no_product_sales Binary64.add_item its)))).
Proof.
  intros Hfew Hk.
  set (groups := Mongo.group item_key no_product_sales Binary64.add_item its).
  assert (Hlen : (length (Mongo.sort_by revenue_desc groups) <= 5)%nat).
  { rewrite <- (Permutation_length (sort_by_Permutation revenue_desc groups)).
    unfold groups. now rewrite group_length. }
  unfold Mongo.limit. rewrite firstn_all2 by exact Hlen.
  apply (keys_group_In item_key no_product_sales Binary64.add_item) in Hk.
  apply in_map_iff in Hk. destruct Hk as (g & Hfst & Hg). fold groups in Hg.
  destruct (b64_group_entry its g Hg) as (_ & Hq & Hr).
  apply in_map_iff. exists g. split.
  - destruct g as [[pid t] a]. cbn in *. subst k.
    unfold Binary64.top_product_row, Binary64.group_row. cbn. now rewrite Hq, Hr.
  - eapply Permutation_in; [apply sort_by_Permutation | exact Hg].
Qed.

Lemma b64_series_lookup now docs d :
  by_day (Binary64.pipeline_timeseries now docs) !! Some d
  = match day_orders now d docs with
    | [] => None
    | _ :: _ =>
        Some (fold_left (fun a o => Binary64.add_sale a (total_amount o))
                (day_orders now d docs) no_sales)
    end.
Proof.
  unfold Binary64.pipeline_timeseries.
  set (groups := Mongo.group _ _ _ _).
  assert (Hnd : List.NoDup (map fst groups)) by apply keys_group_NoDup.
  rewrite by_day_lookup
    by (eapply Permutation.Permutation_NoDup;
        [apply Permutation_map, sort_by_Permutation | exact Hnd]).
  rewrite (assoc_Permutation _ groups) by (exact Hnd || apply sort_by_Permutation).
  unfold groups. rewrite assoc_group, members_map, members_day_key.
  rewrite match_placed_at_gte_since. fold (day_orders now d docs).
  destruct (day_orders now d docs) as [| o os]; [reflexivity |].
  f_equal. generalize (o :: os). intros l. generalize no_sales.
  induction l as [| x l IH]; intros s; [reflexivity | cbn; apply IH].
Qed.

(** An entry of the series carries the unrounded double sum and the
    number of the orders its day aggregates. *)
Lemma b64_day_entry_spec now docs d :
  ts_day (day_entry (by_day (Binary64.pipeline_timeseries now docs)) d) = d
  /\ ts_revenue (day_entry (by_day (Binary64.pipeline_timeseries now docs)) d)
     = Binary64.revenue_of (day_orders now d docs)
  /\ ts_orders (day_entry (by_day (Binary64.pipeline_timeseries now docs)) d)
     = count_of (day_orders now d docs).
Proof.
  unfold day_entry. cbn [ts_day ts_revenue ts_orders].
  rewrite b64_series_lookup. unfold Py.float, Py.int.
  destruct (b64_fold_add_sale total_amount (day_orders now d docs) no_sales) as [Hr Ho].
  destruct (day_orders now d docs) as [| o os] eqn:E.
  - repeat split; reflexivity.
  - cbn [fmap option_fmap option_map default from_option id].
    repeat split; [exact Hr | rewrite Ho; cbn; reflexivity].
Qed.

(** The overview of a configured store always returns a report, whose
    fields are the expressions of the source. *)
Lemma b64_overview_ok db now :
  exists r, Binary64.analytics_overview (Some db) now = Py.Ok r
    /\ today_revenue r
       = Binary64.round2 (Binary64.revenue_of (orders_since (start_today now) db))
    /\ today_orders r = count_of (orders_since (start_today now) db)
    /\ mtd_revenue r
       = Binary64.round2 (Binary64.revenue_of (orders_since (start_month now) db))
    /\ mtd_orders r = count_of (orders_since (start_month now) db)
    /\ avg_order_value r
       = (if (count_of (orders_since (start_month now) db) =? 0)%Z then 0
          else Binary64.round2
                 (Binary64.fl
                    (Binary64.revenue_of (orders_since (start_month now) db)
                     / inject_Z (count_of (orders_since (start_month now) db)))))
    /\ top_products r
       = map Binary64.top_product_row (Binary64.pipeline_top_products now (order db))
    /\ timeseries r
       = map (day_entry (by_day (Binary64.pipeline_timeseries now (order db)))) (days now)
    /\ segments r = map segment_row (pipeline_segments (customer db)).
Proof.
  unfold Binary64.analytics_overview. cbv zeta.
  destruct (b64_window_figures (start_today now) db) as [Htr Hto].
  destruct (b64_window_figures (start_month now) db) as [Hmr Hmo].
  rewrite Htr, Hto, Hmr, Hmo.
  set (n := count_of (orders_since (start_month now) db)).
  unfold Py.truthy, Binary64.truediv.
  destruct (Z.eqb_spec n 0) as [E | NE]; cbn [negb].
  - eexists. split; [reflexivity |]. cbn. repeat split; reflexivity.
  - assert (Hq : Qeq_bool (inject_Z n) 0 = false).
    { apply not_true_is_false. intros Hq. apply Qeq_bool_eq in Hq.
      apply NE. unfold Qeq in Hq. cbn in Hq. lia. }
    rewrite Hq. eexists. split; [reflexivity |]. cbn. repeat split; reflexivity.
Qed.

End Binary64Overview.

(** ** The report *)

Local Open Scope Q_scope.

(** C1, as amended.  For a configured store the overview returns a report
    whose [today_*] fields are computed over the orders dated at or after
    midnight UTC of the current day and whose [mtd_*] fields over the
    orders dated at or after midnight of the first day of the current
    month; no upper bound at [now] is applied.  The revenue field is the
    sum of their [total_amount], added as doubles in collection order and
    rounded to two decimals, the orders field is their number, and both
    are 0 when there is no such order. *)
Theorem overview_window_sums (db : Database) (now : Z) :
  exists r, Binary64.analytics_overview (Some db) now = Py.Ok r
    /\ start_today now = midnight now
    /\ start_month now
       = (midnight now - Calendar.timedelta_days (Calendar.day now - 1))%Z
    /\ today_revenue r
       = Binary64.round2 (Binary64.revenue_of (orders_since (start_today now) db))
    /\ today_orders r = count_of (orders_since (start_today now) db)
    /\ mtd_revenue r
       = Binary64.round2 (Binary64.revenue_of (orders_since (start_month now) db))
    /\ mtd_orders r = count_of (orders_since (start_month now) db)
    /\ (orders_since (start_today now) db = [] ->
        today_revenue r = 0 /\ today_orders r = 0%Z)
    /\ (orders_since (start_month now) db = [] ->
        mtd_revenue r = 0 /\ mtd_orders r = 0%Z).
Proof.
  destruct (b64_overview_ok db now) as (r & Hr & Ht & Hto & Hm & Hmo & _).
  exists r. split; [exact Hr |].
  split; [apply start_today_midnight |].
  split; [apply start_month_first |].
  repeat (split; [assumption |]).
  split; intros E.
  - rewrite Ht, Hto, E. split; vm_compute; reflexivity.
  - rewrite Hm, Hmo, E. split; vm_compute; reflexivity.
Qed.

Lemma overview_window_sums_witness :
  exists r, Binary64.analytics_overview (Some Sample.empty_db) Sample.noon = Py.Ok r
    /\ today_revenue r = 0 /\ today_orders r = 0%Z
    /\ mtd_revenue r = 0 /\ mtd_orders r = 0%Z.
Proof.
  destruct (overview_window_sums Sample.empty_db Sample.noon)
    as (r & Hr & _ & _ & _ & _ & _ & _ & Htoday & Hmtd).
  exists r. split; [exact Hr |].
  destruct (Htoday eq_refl) as [H1 H2].
  destruct (Hmtd eq_refl) as [H3 H4].
  repeat split; assumption.
Defined.

(** C1, as stated, fails: an order dated after [now] is counted although
    it lies outside [[start, now]], and the revenue field is the rounded
    sum, not the sum. *)
Lemma window_includes_orders_dated_after_now :
  exists r, Binary64.analytics_overview (Some Sample.one_ahead) Sample.noon = Py.Ok r
    /\ ~ today_revenue r
         == Binary64.revenue_of
              (orders_within (midnight Sample.noon) Sample.noon Sample.one_ahead)
    /\ today_orders r
       <> count_of (orders_within (midnight Sample.noon) Sample.noon Sample.one_ahead)
    /\ ~ today_revenue r
         == Binary64.revenue_of (orders_since (midnight Sample.noon) Sample.one_ahead).
Proof.
  eexists. split; [vm_compute; reflexivity |].
  repeat split; vm_compute; discriminate.
Qed.

(** The end-to-end example of the specification, and sums on which double
    and decimal arithmetic part: three orders of 0.005 are reported as
    0.01, orders of 0.25 and 0.015 as 0.27. *)
Example overview_on_doubles :
  (exists r, Binary64.analytics_overview (Some Sample.two_today) Sample.noon = Py.Ok r
     /\ today_revenue r = Binary64.fl (255 # 10) /\ today_orders r = 2%Z
     /\ mtd_revenue r = Binary64.fl (255 # 10) /\ mtd_orders r = 2%Z
     /\ avg_order_value r = Binary64.fl (1275 # 100))
  /\ (exists r, Binary64.analytics_overview (Some Sample.half_cents) Sample.noon = Py.Ok r
        /\ today_revenue r = Binary64.fl (1 # 100)
        /\ avg_order_value r = Binary64.fl (1 # 100))
  /\ (exists r, Binary64.analytics_overview (Some Cents.quarter) Sample.noon = Py.Ok r
        /\ today_revenue r = Binary64.fl (27 # 100))
  /\ (exists r, Binary64.analytics_overview (Some Cents.half_cent_line) Sample.noon
                = Py.Ok r
        /\ map tp_revenue (top_products r) = [Binary64.fl (1 # 100)]).
Proof.
  repeat split; eexists; (split; [vm_compute; reflexivity |]);
    repeat split; vm_compute; reflexivity.
Qed.

(** C6, as amended.  With [S] the unrounded double sum of [total_amount]
    over the month-to-date window (what the store returned, not the
    rounded [mtd_revenue] of the report) and [n] the number of its orders,
    the average order value is 0 when [n] is 0, an explicit branch, and
    otherwise the double quotient [S / n] rounded to two decimals.  The
    overview never raises: the division is not reached with a zero
    divisor. *)
Theorem avg_order_value_of_window (db : Database) (now : Z) :
  (exists r, Binary64.analytics_overview (Some db) now = Py.Ok r
     /\ mtd_orders r = count_of (orders_since (start_month now) db)
     /\ if (count_of (orders_since (start_month now) db) =? 0)%Z
        then avg_order_value r = 0
        else avg_order_value r
             = Binary64.round2
                 (Binary64.fl
                    (Binary64.revenue_of (orders_since (start_month now) db)
                     / inject_Z (count_of (orders_since (start_month now) db))))
             /\ Binary64.rounded_to_cents
                  (Binary64.fl
                     (Binary64.revenue_of (orders_since (start_month now) db)
                      / inject_Z (count_of (orders_since (start_month now) db))))
                  (avg_order_value r))
  /\ forall e, Binary64.analytics_overview (Some db) now <> Py.Raise e.
Proof.
  destruct (b64_overview_ok db now) as (r & Hr & _ & _ & _ & Hmo & Havg & _).
  split; [| intros e; rewrite Hr; discriminate].
  exists r. split; [exact Hr |]. split; [exact Hmo |].
  rewrite Havg.
  destruct (count_of (orders_since (start_month now) db) =? 0)%Z; [reflexivity |].
  split; [reflexivity | apply round2_b64_rounded].
Qed.

(** C6, as stated, fails: for three orders of 0.005 the code reports
    [mtd_revenue] 0.01, [mtd_orders] 3 and [avg_order_value] 0.01, whereas
    [round(mtd_revenue / mtd_orders, 2)] is 0. *)
Lemma avg_order_value_not_of_reported_revenue :
  exists r, Binary64.analytics_overview (Some Sample.half_cents) Sample.noon = Py.Ok r
    /\ mtd_orders r = 3%Z
    /\ mtd_revenue r = Binary64.fl (1 # 100)
    /\ avg_order_value r = Binary64.fl (1 # 100)
    /\ Binary64.round2 (Binary64.fl (mtd_revenue r / inject_Z (mtd_orders r))) = 0
    /\ ~ avg_order_value r
         == Binary64.round2 (Binary64.fl (mtd_revenue r / inject_Z (mtd_orders r))).
Proof.
  eexists. split; [vm_compute; reflexivity |].
  repeat split; try (vm_compute; reflexivity).
  vm_compute. discriminate.
Qed.

(** C7.  Without a configured store the overview raises the
    "Database not configured" error and returns no report. *)
Theorem overview_unconfigured_store (now : Z) :
  analytics_overview None now
  = Py.Raise (Py.HTTPException 500 "Database not configured")
  /\ forall r, analytics_overview None now <> Py.Ok r.
Proof. split; [reflexivity | intros r; discriminate]. Qed.

(** C10.  Midnight of the current day is not before the first of the
    month, so every order of the today window is in the month-to-date
    window: [today_orders <= mtd_orders], and with non-negative amounts
    [today_revenue <= mtd_revenue]. *)
Theorem today_within_month (db : Database) (now : Z) :
  exists r, analytics_overview (Some db) now = Py.Ok r
    /\ (start_month now <= start_today now)%Z
    /\ (forall o, placed_since (start_today now) o = true ->
                  placed_since (start_month now) o = true)
    /\ (today_orders r <= mtd_orders r)%Z
    /\ ((forall o, In o (order db) -> 0 <= total_amount o) ->
        today_revenue r <= mtd_revenue r).
Proof.
  destruct (analytics_overview_ok db now)
    as (r & Hr & Htr & Hto & Hmr & Hmo & _).
  destruct (window_fields (start_today now) db) as [Ht Htord].
  destruct (window_fields (start_month now) db) as [Hm Hmord].
  pose proof (start_month_le_today now) as Hle.
  exists r. split; [exact Hr |]. split; [exact Hle |].
  split; [intros o; now apply placed_since_le |].
  split.
  - rewrite Hto, Hmo, Htord, Hmord. apply filter_count_le.
    intros o _. now apply placed_since_le.
  - intros Hpos. rewrite Htr, Hmr, Ht, Hm. apply round2_mono.
    apply filter_sum_le; [exact Hpos |].
    intros o _. now apply placed_since_le.
Qed.

Lemma today_within_month_witness :
  exists r, analytics_overview (Some Sample.two_today) Sample.noon = Py.Ok r
    /\ (today_orders r <= mtd_orders r)%Z /\ today_revenue r <= mtd_revenue r.
Proof.
  destruct (today_within_month Sample.two_today Sample.noon)
    as (r & Hr & _ & _ & Hord & Hrev).
  exists r. split; [exact Hr |]. split; [exact Hord |].
  apply Hrev. intros o [<- | [<- | []]]; vm_compute; discriminate.
Defined.

(** One entry per day key: entry [i] of the series is the entry of the
    [i]-th of the 14 days. *)
Lemma timeseries_nth (db : Database) (now : Z) (r : Overview) (i : nat) :
  timeseries r = map (day_entry (by_day (pipeline_timeseries now (order db)))) (days now) ->
  (i < 14)%nat ->
  nth_error (timeseries r) i
  = Some (day_entry (by_day (pipeline_timeseries now (order db)))
            (Calendar.isoformat (Calendar.toordinal now - 13 + Z.of_nat i)%Z)).
Proof.
  intros Hts Hi. rewrite Hts, days_spec, !nth_error_map.
  rewrite (nth_error_nth' (seq 0 14) 0%nat) by (rewrite length_seq; exact Hi).
  rewrite seq_nth by exact Hi. reflexivity.
Qed.

(** C2.  The series has exactly 14 entries, entry [i] being the day 13 - i
    days before the day of [now]: consecutive calendar days, oldest first,
    ending today.  A day for which the pipeline has no order, in
    particular a day on which no order was placed at all, is present with
    revenue 0 and orders 0. *)
Theorem timeseries_fourteen_days (db : Database) (now : Z) :
  exists r, analytics_overview (Some db) now = Py.Ok r
    /\ length (timeseries r) = 14%nat
    /\ forall i, (i < 14)%nat ->
       exists e, nth_error (timeseries r) i = Some e
         /\ ts_day e = Calendar.isoformat (Calendar.toordinal now - 13 + Z.of_nat i)%Z
         /\ (day_orders now (ts_day e) (order db) = [] ->
             ts_revenue e = 0 /\ ts_orders e = 0%Z)
         /\ ((forall o, In o (order db) -> placed_on (ts_day e) o = false) ->
             ts_revenue e = 0 /\ ts_orders e = 0%Z).
Proof.
  destruct (analytics_overview_ok db now)
    as (r & Hr & _ & _ & _ & _ & _ & _ & Hts & _).
  exists r. split; [exact Hr |]. split.
  - rewrite Hts, length_map. unfold days. now rewrite length_map, length_seq.
  - intros i Hi. eexists. split; [apply (timeseries_nth db now r i Hts Hi) |].
    set (d := Calendar.isoformat _).
    assert (Hzero : day_orders now d (order db) = [] ->
                    ts_revenue (day_entry (by_day (pipeline_timeseries now (order db))) d) = 0
                    /\ ts_orders (day_entry (by_day (pipeline_timeseries now (order db))) d)
                       = 0%Z)
      by (intros E; now rewrite (day_entry_zero _ _ _ E)).
    split; [reflexivity |]. split; [exact Hzero |].
    intros Hnone. apply Hzero. unfold day_orders.
    destruct (List.filter (placed_on d) _) as [| o os] eqn:E; [reflexivity |].
    assert (Hin : In o (o :: os)) by now left.
    rewrite <- E in Hin. apply filter_In in Hin. destruct Hin as [Hin Hon].
    apply filter_In in Hin. destruct Hin as [Hin _].
    specialize (Hnone o Hin). cbn [ts_day day_entry] in Hnone. congruence.
Qed.

Lemma timeseries_fourteen_days_witness :
  exists r e, analytics_overview (Some Sample.two_today) Sample.noon = Py.Ok r
    /\ nth_error (timeseries r) 0 = Some e
    /\ ts_day e = "2024-03-02"%string /\ ts_revenue e = 0 /\ ts_orders e = 0%Z.
Proof.
  destruct (timeseries_fourteen_days Sample.two_today Sample.noon)
    as (r & Hr & _ & Hday).
  destruct (Hday 0%nat ltac:(lia)) as (e & He & Hd & _ & Hzero).
  exists r, e. split; [exact Hr |]. split; [exact He |].
  assert (Hd' : ts_day e = "2024-03-02"%string) by (rewrite Hd; vm_compute; reflexivity).
  split; [exact Hd' |].
  apply Hzero. rewrite Hd'.
  intros o [<- | [<- | []]]; vm_compute; reflexivity.
Defined.

(** Every entry of the series aggregates the orders dated at or after
    [start_14], thirteen days before [now] to the millisecond, that fall
    on its day. *)
Lemma timeseries_entries (db : Database) (now : Z) :
  exists r, analytics_overview (Some db) now = Py.Ok r
    /\ forall e, In e (timeseries r) ->
       ts_revenue e == revenue_of (day_orders now (ts_day e) (order db))
       /\ ts_orders e = count_of (day_orders now (ts_day e) (order db)).
Proof.
  destruct (analytics_overview_ok db now)
    as (r & Hr & _ & _ & _ & _ & _ & _ & Hts & _).
  exists r. split; [exact Hr |]. intros e He.
  rewrite Hts in He. apply in_map_iff in He. destruct He as (d & <- & _).
  destruct (day_entry_spec now (order db) d) as (Hd & Hrev & Hord).
  cbv zeta in Hd. rewrite Hd. split; assumption.
Qed.

Lemma filter_absorb {A} (p q : A -> bool) (l : list A) :
  (forall x, In x l -> p x = true -> q x = true) ->
  List.filter p (List.filter q l) = List.filter p l.
Proof.
  induction l as [| x l IH]; intros Himp; [reflexivity |].
  assert (IH' := IH (fun y Hy => Himp y (or_intror Hy))).
  pose proof (Himp x (or_introl eq_refl)) as Hx.
  cbn. destruct (q x) eqn:Hq; cbn; destruct (p x); try now rewrite IH'.
  discriminate (Hx eq_refl).
Qed.

Lemma toordinal_start_14 (now : Z) :
  Calendar.toordinal (start_14 now) = (Calendar.toordinal now - 13)%Z.
Proof.
  unfold start_14.
  replace (now - Calendar.timedelta_days 13)%Z
    with (now + Calendar.timedelta_days (-13))%Z
    by (unfold Calendar.timedelta_days; lia).
  rewrite toordinal_add_days. lia.
Qed.


(** C3 fails on the code.  At 12:00 on 2024-03-15 the oldest day of the
    series is 2024-03-02; an order placed at 06:00 on that day is dated
    before [start_14] (12:00 on 2024-03-02), is not matched, and the entry
    of 2024-03-02 shows no order, whereas one order of 11.00 falls on that
    day. *)
Lemma oldest_day_misses_early_orders :
  exists r e, analytics_overview (Some Sample.early_on_oldest_day) Sample.noon = Py.Ok r
    /\ nth_error (timeseries r) 0 = Some e
    /\ ts_day e = "2024-03-02"%string
    /\ ts_revenue e = 0 /\ ts_orders e = 0%Z
    /\ count_of (List.filter (placed_on "2024-03-02") (order Sample.early_on_oldest_day))
       = 1%Z
    /\ revenue_of (List.filter (placed_on "2024-03-02") (order Sample.early_on_oldest_day))
       == 11 # 1.
Proof.
  do 2 eexists. split; [vm_compute; reflexivity |].
  split; [reflexivity |]. repeat split.
Qed.

(** C4, as amended.  The top products are the ranking of the product
    groups of the line items of the orders dated at or after
    [now - 30 days] (no upper bound at [now]): one row per exact
    (product_id, title) pair, with the summed quantity and the sum of
    price x quantity, computed on doubles and rounded to two decimals,
    sorted by descending revenue, the five best groups, or all of them
    when fewer than five. *)
Theorem top_products_ranked (db : Database) (now : Z) :
  exists r, Binary64.analytics_overview (Some db) now = Py.Ok r
    /\ Binary64.top_products_of (Mongo.unwind_items (orders_since (last_30 now) db))
         (top_products r).
Proof.
  destruct (b64_overview_ok db now) as (r & Hr & _ & _ & _ & _ & _ & Htop & _).
  exists r. split; [exact Hr |].
  rewrite Htop. apply b64_ranking_spec.
Qed.

Lemma top_products_ranked_witness :
  exists r p, Binary64.analytics_overview (Some Sample.eight_products) Sample.noon = Py.Ok r
    /\ length (top_products r) = 5%nat
    /\ nth_error (top_products r) 0 = Some p
    /\ tp_revenue p
       = Binary64.round2
           (Binary64.group_revenue ("8", "T")%string
              (Mongo.unwind_items
                 (orders_since (last_30 Sample.noon) Sample.eight_products))).
Proof.
  destruct (top_products_ranked Sample.eight_products Sample.noon)
    as (r & Hr & [Hlen _ Hrows _ _]).
  assert (Hr' := Hr). vm_compute in Hr'. injection Hr' as Hr'.
  exists r.
  exists {| tp_product_id := "8"; tp_title := "T"; tp_quantity := 1;
            tp_revenue := 8 # 1 |}.
  split; [exact Hr |].
  split; [rewrite Hlen; vm_compute; reflexivity |].
  split; [rewrite <- Hr'; vm_compute; reflexivity |].
  refine (proj2 (proj2 (Hrows _ _))).
  rewrite <- Hr'. vm_compute. left. reflexivity.
Defined.

(** C4, as stated, fails: an order dated after [now] is outside the
    trailing window [[now - 30 days, now]], yet its product is ranked. *)
Lemma top_products_include_orders_dated_after_now :
  exists r, Binary64.analytics_overview (Some Sample.tomorrow) Sample.noon = Py.Ok r
    /\ ~ Binary64.top_products_of
           (Mongo.unwind_items
              (orders_within (last_30 Sample.noon) Sample.noon Sample.tomorrow))
           (top_products r).
Proof.
  eexists. split; [vm_compute; reflexivity |].
  intros [Hlen _ _ _ _]. vm_compute in Hlen. discriminate.
Qed.

(** The cap of the specification: eight groups, five rows, best first. *)
Example top_products_capped :
  exists r, Binary64.analytics_overview (Some Sample.eight_products) Sample.noon = Py.Ok r
    /\ map tp_product_id (top_products r) = ["8"; "7"; "6"; "5"; "4"]%string.
Proof. eexists. split; [vm_compute; reflexivity |]. reflexivity. Qed.

(** C5 fails on the code.  A customer with [None] and a customer with the
    empty string as segment are both without a usable segment, but they
    are grouped before the label is substituted: the report has two rows
    labelled "Uncategorized", each of count 1, and no row of count 2. *)
Lemma uncategorized_split_in_two_rows :
  exists r, Binary64.analytics_overview (Some Sample.unlabelled) Sample.noon = Py.Ok r
    /\ segments r = [ {| sc_segment := "Uncategorized"; sc_count := 1 |};
                      {| sc_segment := "Uncategorized"; sc_count := 1 |} ]
    /\ count_of (List.filter uncategorized (customer Sample.unlabelled)) = 2%Z
    /\ ~ uncategorized_on_one_row (customer Sample.unlabelled) (segments r).
Proof.
  eexists. split; [vm_compute; reflexivity |]. split; [reflexivity |].
  split; [reflexivity |].
  vm_compute. intros [H | [H | []]]; discriminate H.
Qed.

Lemma b64_match_over_map (h : Order -> Order) start docs :
  (forall o, placed_at (h o) = placed_at o) ->
  Mongo.match_placed_at_gte start (map h docs)
  = map h (Mongo.match_placed_at_gte start docs).
Proof. intros Hp. now apply match_over_map. Qed.

Lemma b64_pipeline_window_reads (h : Order -> Order) start docs :
  (forall o, placed_at (h o) = placed_at o) ->
  (forall o, total_amount (h o) = total_amount o) ->
  Binary64.pipeline_window start (map h docs) = Binary64.pipeline_window start docs.
Proof.
  intros Hp Htotal. unfold Binary64.pipeline_window, Mongo.group.
  rewrite b64_match_over_map by exact Hp. rewrite fold_left_over_map.
  apply fold_left_pointwise. intros gs o. now rewrite Htotal.
Qed.

Lemma b64_pipeline_top_products_reads (h : Order -> Order) now docs :
  (forall o, placed_at (h o) = placed_at o) ->
  (forall o, items (h o) = items o) ->
  Binary64.pipeline_top_products now (map h docs)
  = Binary64.pipeline_top_products now docs.
Proof.
  intros Hp Hitems. unfold Binary64.pipeline_top_products, Mongo.unwind_items.
  rewrite b64_match_over_map by exact Hp. do 3 f_equal.
  rewrite !flat_map_concat_map, map_map. f_equal.
  apply map_ext. exact Hitems.
Qed.

(** C8.  The today and month-to-date revenues are the rounded double sums
    of the stored [total_amount] and are unchanged by replacing the items
    of every order; the top products are unchanged by replacing the stored
    total of every order, and, when the ranking window holds at most five
    product groups, every group is on a row whose revenue is recomputed
    from the items as the rounded double sum of price x quantity. *)
Theorem window_totals_and_item_revenues
    (db : Database) (now : Z) (new_items : Order -> list OrderItem)
    (new_total : Order -> Q) :
  exists r r1 r2,
    Binary64.analytics_overview (Some db) now = Py.Ok r
    /\ Binary64.analytics_overview (Some (map_orders (set_items new_items) db)) now
       = Py.Ok r1
    /\ Binary64.analytics_overview (Some (map_orders (set_total_amount new_total) db)) now
       = Py.Ok r2
    /\ today_revenue r1 = today_revenue r /\ today_orders r1 = today_orders r
    /\ mtd_revenue r1 = mtd_revenue r /\ mtd_orders r1 = mtd_orders r
    /\ avg_order_value r1 = avg_order_value r
    /\ top_products r2 = top_products r
    /\ today_revenue r
       = Binary64.round2 (Binary64.revenue_of (orders_since (start_today now) db))
    /\ mtd_revenue r
       = Binary64.round2 (Binary64.revenue_of (orders_since (start_month now) db))
    /\ Forall (fun p => tp_revenue p
                        = Binary64.round2
                            (Binary64.group_revenue (row_key p)
                               (Mongo.unwind_items (orders_since (last_30 now) db))))
         (top_products r)
    /\ ((distinct (map item_key (Mongo.unwind_items (orders_since (last_30 now) db)))
         <= 5)%nat ->
        forall k,
          In k (map item_key (Mongo.unwind_items (orders_since (last_30 now) db))) ->
          In (Binary64.group_row k (Mongo.unwind_items (orders_since (last_30 now) db)))
            (top_products r)).
Proof.
  destruct (b64_overview_ok db now)
    as (r & Hr & Htr & Hto & Hmr & Hmo & Havg & Htop & _).
  assert (Hok : forall db', exists r', Binary64.analytics_overview (Some db') now = Py.Ok r')
    by (intros db'; destruct (b64_overview_ok db' now) as (r' & Hr' & _); now exists r').
  destruct (Hok (map_orders (set_items new_items) db)) as (r1 & Hr1).
  destruct (Hok (map_orders (set_total_amount new_total) db)) as (r2 & Hr2).
  assert (H1 : today_revenue r1 = today_revenue r /\ today_orders r1 = today_orders r
               /\ mtd_revenue r1 = mtd_revenue r /\ mtd_orders r1 = mtd_orders r
               /\ avg_order_value r1 = avg_order_value r).
  { revert Hr Hr1. unfold Binary64.analytics_overview. cbn [map_orders order].
    rewrite !(b64_pipeline_window_reads (set_items new_items)) by reflexivity.
    cbv zeta. destruct (Py.truthy _); [destruct (Binary64.truediv _ _) |];
      cbn; intros [= <-] [= <-] || (intros ? ?; discriminate);
      cbn; repeat split; reflexivity. }
  assert (H2 : top_products r2 = top_products r).
  { revert Hr Hr2. unfold Binary64.analytics_overview. cbn [map_orders order].
    rewrite !(b64_pipeline_top_products_reads (set_total_amount new_total))
      by reflexivity.
    cbv zeta. do 2 (destruct (Py.truthy _); [destruct (Binary64.truediv _ _) |]);
      cbn; intros [= <-] [= <-] || (intros ? ?; discriminate); reflexivity. }
  exists r, r1, r2.
  split; [exact Hr |]. split; [exact Hr1 |]. split; [exact Hr2 |].
  destruct H1 as (? & ? & ? & ? & ?).
  repeat (split; [assumption |]).
  split.
  - rewrite Htop. unfold Binary64.pipeline_top_products.
    rewrite match_placed_at_gte_since. fold (orders_since (last_30 now) db).
    apply List.Forall_forall. intros p Hp.
    apply (Binary64.top_rows _ _ (b64_ranking_spec _) p Hp).
  - intros Hfew k Hk. rewrite Htop. unfold Binary64.pipeline_top_products.
    rewrite match_placed_at_gte_since. fold (orders_since (last_30 now) db).
    now apply b64_ranking_complete.
Qed.

(** An order stored with total 100 whose items amount to 2 x 10: the
    window revenue is 100, the revenue of its product is 20. *)
Lemma window_totals_and_item_revenues_witness :
  exists r, Binary64.analytics_overview (Some Sample.mismatched) Sample.noon = Py.Ok r
    /\ today_revenue r = 100 # 1
    /\ In {| tp_product_id := "p1"; tp_title := "Earbuds"; tp_quantity := 2;
             tp_revenue := 20 # 1 |} (top_products r).
Proof.
  destruct (window_totals_and_item_revenues Sample.mismatched Sample.noon
              items total_amount)
    as (r & r1 & r2 & Hr & _ & _ & _ & _ & _ & _ & _ & _ & Ht & _ & _ & Hall).
  exists r. split; [exact Hr |]. split; [rewrite Ht; vm_compute; reflexivity |].
  assert (Hin := Hall ltac:(vm_compute; lia) ("p1", "Earbuds")%string
                   ltac:(vm_compute; left; reflexivity)).
  vm_compute in Hin. vm_compute. exact Hin.
Defined.

Lemma two_decimals_round2 (q : Q) : two_decimals (Py.round2 q).
Proof. eexists. apply round2_hundredths. Qed.

(** C9.  In every report [today_revenue] and [mtd_revenue] are the double
    sums of their windows rounded to two decimals, [avg_order_value] is 0
    or the double quotient rounded to two decimals, and the revenue of each
    top product is the double revenue of its group rounded to two
    decimals; the revenue of an entry of the series is the double sum of
    its orders as it is, and there are reports in which rounding it to two
    decimals would change it. *)
Theorem monetary_fields_rounded_to_cents :
  (forall db now,
     exists r, Binary64.analytics_overview (Some db) now = Py.Ok r
       /\ Binary64.rounded_to_cents
            (Binary64.revenue_of (orders_since (start_today now) db)) (today_revenue r)
       /\ Binary64.rounded_to_cents
            (Binary64.revenue_of (orders_since (start_month now) db)) (mtd_revenue r)
       /\ (if (count_of (orders_since (start_month now) db) =? 0)%Z
           then avg_order_value r = 0
           else Binary64.rounded_to_cents
                  (Binary64.fl
                     (Binary64.revenue_of (orders_since (start_month now) db)
                      / inject_Z (count_of (orders_since (start_month now) db))))
                  (avg_order_value r))
       /\ Forall (fun p => Binary64.rounded_to_cents
                             (Binary64.group_revenue (row_key p)
                                (Mongo.unwind_items (orders_since (last_30 now) db)))
                             (tp_revenue p))
            (top_products r)
       /\ Forall (fun e => ts_revenue e
                           = Binary64.revenue_of (day_orders now (ts_day e) (order db)))
            (timeseries r))
  /\ exists db now r e,
       Binary64.analytics_overview (Some db) now = Py.Ok r
       /\ In e (timeseries r)
       /\ Binary64.round2 (ts_revenue e) <> ts_revenue e.
Proof.
  split.
  - intros db now.
    destruct (b64_overview_ok db now)
      as (r & Hr & Htr & _ & Hmr & _ & Havg & Htop & Hts & _).
    exists r. split; [exact Hr |].
    split; [rewrite Htr; apply round2_b64_rounded |].
    split; [rewrite Hmr; apply round2_b64_rounded |].
    split; [| split].
    + rewrite Havg.
      destruct (count_of (orders_since (start_month now) db) =? 0)%Z;
        [reflexivity | apply round2_b64_rounded].
    + rewrite Htop. unfold Binary64.pipeline_top_products.
      rewrite match_placed_at_gte_since. fold (orders_since (last_30 now) db).
      apply List.Forall_forall. intros p Hp.
      destruct (Binary64.top_rows _ _ (b64_ranking_spec _) p Hp) as (_ & _ & ->).
      apply round2_b64_rounded.
    + rewrite Hts. apply List.Forall_forall. intros e He.
      apply in_map_iff in He. destruct He as (d & <- & _).
      destruct (b64_day_entry_spec now (order db) d) as (Hd & Hrev & _).
      now rewrite Hd.
  - exists Cents.dimes, Sample.noon.
    eexists.
    exists {| ts_day := "2024-03-15";
              ts_revenue := Binary64.add (Binary64.fl (1 # 10)) (Binary64.fl (2 # 10));
              ts_orders := 2 |}.
    split; [vm_compute; reflexivity |].
    split; [vm_compute; tauto |].
    vm_compute. discriminate.
Qed.

(** Orders of 0.1 and 0.2: the series carries 0.30000000000000004, the
    report 0.3. *)
Example series_revenue_is_not_rounded :
  exists r e, Binary64.analytics_overview (Some Cents.dimes) Sample.noon = Py.Ok r
    /\ nth_error (timeseries r) 13 = Some e
    /\ ts_revenue e = Binary64.fl (30000000000000004 # 100000000000000000)
    /\ today_revenue r = Binary64.fl (3 # 10)
    /\ ts_revenue e <> today_revenue r.
Proof.
  do 2 eexists. split; [vm_compute; reflexivity |].
  split; [reflexivity |]. repeat split; try (vm_compute; reflexivity).
  vm_compute. discriminate.
Qed.

(** ** Further properties of the overview *)

Lemma match_absorbs (floor start : Z) (docs : list Order) :
  (floor <= start)%Z ->
  Mongo.match_placed_at_gte start (List.filter (placed_since floor) docs)
  = Mongo.match_placed_at_gte start docs.
Proof.
  intros Hle. rewrite !match_placed_at_gte_since. apply filter_absorb.
  intros o _. now apply placed_since_le.
Qed.

Lemma last_30_le_start_14 (now : Z) : (last_30 now <= start_14 now)%Z.
Proof. unfold last_30, start_14, Calendar.timedelta_days, Calendar.DAY_MS. lia. Qed.

(** X1.  The report is a function of the dated orders that are not older than
    both the first of the month and [now - 30 days]: dropping every other
    order from the store, undated ones included, changes nothing. *)
Theorem overview_reads_recent_orders (db : Database) (now : Z) :
  analytics_overview (Some (orders_from (Z.min (start_month now) (last_30 now)) db)) now
  = analytics_overview (Some db) now.
Proof.
  pose proof (start_month_le_today now) as Hmt.
  pose proof (last_30_le_start_14 now) as H314.
  unfold analytics_overview, orders_from, orders_since. cbn [order customer].
  unfold pipeline_window, pipeline_top_products, pipeline_timeseries.
  rewrite !match_absorbs by lia. reflexivity.
Qed.

Lemma sumZ_Permutation (l l' : list Z) : Permutation l l' -> sumZ l = sumZ l'.
Proof.
  induction 1 as [| x l l' _ IH | x y l | l l' l'' _ IH1 _ IH2]; cbn;
    unfold sumZ in *; cbn; lia.
Qed.

Lemma counts_group_upd {K} `{EqDecision K} (k : K) (gs : list (K * Z)) :
  sumZ (map snd (Mongo.group_upd k (fun n => n + 1)%Z 0%Z gs))
  = (sumZ (map snd gs) + 1)%Z.
Proof.
  induction gs as [| [k0 n0] gs IH]; cbn; [reflexivity |].
  destruct (decide (k = k0)); cbn; unfold sumZ in *; cbn in *; lia.
Qed.

Lemma counts_group {D K} `{EqDecision K} (key : D -> K) (docs : list D) :
  sumZ (map snd (Mongo.group key 0%Z (fun n _ => n + 1)%Z docs)) = count_of docs.
Proof.
  induction docs as [| d docs IH] using rev_ind; [reflexivity |].
  rewrite group_snoc, counts_group_upd, IH.
  unfold count_of. rewrite length_app. cbn. lia.
Qed.

(** X2.  Every customer is counted on exactly one row: the counts of the
    segment rows add up to the number of customers. *)
Theorem segments_count_every_customer (db : Database) (now : Z) :
  exists r, analytics_overview (Some db) now = Py.Ok r
    /\ sumZ (map sc_count (segments r)) = count_of (customer db).
Proof.
  destruct (analytics_overview_ok db now)
    as (r & Hr & _ & _ & _ & _ & _ & _ & _ & Hseg).
  exists r. split; [exact Hr |].
  rewrite Hseg, map_map. change (fun x => sc_count (segment_row x)) with
    (fun x : option string * Z => snd x).
  unfold pipeline_segments.
  rewrite <- (sumZ_Permutation _ _
                (Permutation_map snd (sort_by_Permutation count_desc _))).
  apply counts_group.
Qed.

(** X3.  On the first day of a month the today window is the month-to-date
    window: the today figures equal the month-to-date figures. *)
Theorem first_of_month_today_is_mtd (db : Database) (now : Z) :
  Calendar.day now = 1%Z ->
  exists r, analytics_overview (Some db) now = Py.Ok r
    /\ today_revenue r = mtd_revenue r /\ today_orders r = mtd_orders r.
Proof.
  intros Hday.
  assert (Hstart : start_today now = start_month now)
    by (unfold start_today, start_month; now rewrite Hday).
  destruct (analytics_overview_ok db now)
    as (r & Hr & Htr & Hto & Hmr & Hmo & _).
  exists r. split; [exact Hr |].
  rewrite Htr, Hto, Hmr, Hmo, Hstart. split; reflexivity.
Qed.

Lemma first_of_month_today_is_mtd_witness :
  exists r, analytics_overview (Some Sample.two_today) Demo.first_of_march = Py.Ok r
    /\ today_revenue r = mtd_revenue r /\ today_orders r = mtd_orders r.
Proof.
  apply (first_of_month_today_is_mtd Sample.two_today Demo.first_of_march).
  vm_compute. reflexivity.
Defined.

(** X4.  The today and month-to-date figures and the average depend on the
    UTC date of [now] only, not on the time of day: two overviews of one
    store on the same day agree on them. *)
Theorem same_day_same_figures (db : Database) (now now' : Z) :
  Calendar.toordinal now = Calendar.toordinal now' ->
  exists r r', analytics_overview (Some db) now = Py.Ok r
    /\ analytics_overview (Some db) now' = Py.Ok r'
    /\ today_revenue r = today_revenue r' /\ today_orders r = today_orders r'
    /\ mtd_revenue r = mtd_revenue r' /\ mtd_orders r = mtd_orders r'
    /\ avg_order_value r = avg_order_value r'.
Proof.
  intros Hord.
  assert (Ht : start_today now = start_today now')
    by (unfold start_today, Calendar.year, Calendar.month, Calendar.day;
        now rewrite Hord).
  assert (Hm : start_month now = start_month now')
    by (unfold start_month, Calendar.year, Calendar.month; now rewrite Hord).
  destruct (analytics_overview_ok db now)
    as (r & Hr & Htr & Hto & Hmr & Hmo & Havg & _).
  destruct (analytics_overview_ok db now')
    as (r' & Hr' & Htr' & Hto' & Hmr' & Hmo' & Havg' & _).
  exists r, r'. split; [exact Hr |]. split; [exact Hr' |].
  rewrite Htr, Hto, Hmr, Hmo, Havg, Htr', Hto', Hmr', Hmo', Havg', Ht, Hm.
  repeat split; reflexivity.
Qed.

Lemma same_day_same_figures_witness :
  exists r r', analytics_overview (Some Sample.two_today) Sample.noon = Py.Ok r
    /\ analytics_overview (Some Sample.two_today) (Sample.noon + Sample.hour) = Py.Ok r'
    /\ today_revenue r = today_revenue r' /\ today_orders r = today_orders r'
    /\ mtd_revenue r = mtd_revenue r' /\ mtd_orders r = mtd_orders r'
    /\ avg_order_value r = avg_order_value r'.
Proof.
  apply (same_day_same_figures Sample.two_today Sample.noon (Sample.noon + Sample.hour)).
  vm_compute. reflexivity.
Defined.

Lemma revenue_of_nonneg (os : list Order) :
  (forall o, In o os -> 0 <= total_amount o) -> 0 <= revenue_of os.
Proof.
  intros Hpos. apply sumQ_nonneg. apply List.Forall_forall.
  intros q Hq. apply in_map_iff in Hq. destruct Hq as (o & <- & Ho). now apply Hpos.
Qed.

(** X5.  With non-negative stored totals no figure of the report is negative,
    and the average order value does not exceed the month-to-date
    revenue. *)
Theorem nonnegative_totals_nonnegative_figures (db : Database) (now : Z) :
  (forall o, In o (order db) -> 0 <= total_amount o) ->
  exists r, analytics_overview (Some db) now = Py.Ok r
    /\ 0 <= today_revenue r /\ 0 <= mtd_revenue r
    /\ 0 <= avg_order_value r <= mtd_revenue r
    /\ Forall (fun e => 0 <= ts_revenue e) (timeseries r).
Proof.
  intros Hpos.
  assert (Hsince : forall start, 0 <= revenue_of (orders_since start db)).
  { intros start. apply revenue_of_nonneg. intros o Ho.
    apply filter_In in Ho. now apply Hpos. }
  destruct (analytics_overview_ok db now)
    as (r & Hr & Htr & _ & Hmr & _ & Havg & _).
  destruct (timeseries_entries db now) as (r' & Hr' & Hts).
  rewrite Hr in Hr'. injection Hr' as <-.
  destruct (window_fields (start_today now) db) as [Ht _].
  destruct (window_fields (start_month now) db) as [Hm Hmord].
  destruct (window_figures (start_month now) (order db)) as [Hmrev _].
  fold (orders_since (start_month now) db) in Hmrev.
  exists r. split; [exact Hr |].
  split; [rewrite Htr, Ht; now apply round2_nonneg |].
  split; [rewrite Hmr, Hm; now apply round2_nonneg |].
  split.
  - rewrite Havg, Hmr, Hm. cbv zeta. rewrite Hmord. unfold Py.truthy.
    pose proof (Hsince (start_month now)) as Hs.
    set (S := revenue_of (orders_since (start_month now) db)) in *.
    set (n := count_of (orders_since (start_month now) db)).
    assert (Hn : (0 <= n)%Z) by apply count_of_nonneg.
    destruct (Z.eqb_spec n 0) as [E | NE]; cbn [negb].
    + split; [apply Qle_refl | now apply round2_nonneg].
    + assert (Hq : revenue (first_or_zero (pipeline_window (start_month now) (order db)))
                   / inject_Z n == S / inject_Z n) by (now rewrite Hmrev).
      rewrite (round2_proper _ _ Hq).
      assert (Hn1 : 1 <= inject_Z n)
        by (change 1 with (inject_Z 1); rewrite <- Zle_Qle; lia).
      assert (Hdiv : 0 <= S / inject_Z n <= S).
      { split.
        - apply Qle_shift_div_l; [lra | lra].
        - apply Qle_shift_div_r; [lra |]. nra. }
      split; [apply round2_nonneg | apply round2_mono]; apply Hdiv.
  - apply List.Forall_forall. intros e He.
    destruct (Hts e He) as [Hrev _]. rewrite Hrev.
    apply revenue_of_nonneg. intros o Ho.
    unfold day_orders in Ho. apply filter_In in Ho. destruct Ho as [Ho _].
    apply filter_In in Ho. now apply Hpos.
Qed.

Lemma nonnegative_totals_nonnegative_figures_witness :
  exists r, analytics_overview (Some Sample.two_today) Sample.noon = Py.Ok r
    /\ 0 <= avg_order_value r <= mtd_revenue r.
Proof.
  destruct (nonnegative_totals_nonnegative_figures Sample.two_today Sample.noon)
    as (r & Hr & _ & _ & Havg & _).
  - intros o [<- | [<- | []]]; vm_compute; discriminate.
  - exists r. split; [exact Hr | exact Havg].
Defined.

(** ** Further properties of the daily series *)

Lemma toordinal_mono (a b : Z) :
  (a <= b)%Z -> (Calendar.toordinal a <= Calendar.toordinal b)%Z.
Proof.
  intros Hle. unfold Calendar.toordinal.
  pose proof (Z.div_le_mono a b Calendar.DAY_MS ltac:(reflexivity) Hle). lia.
Qed.

Lemma later_day_since_midnight (now t : Z) :
  (Calendar.toordinal now <= Calendar.toordinal t)%Z -> (midnight now <= t)%Z.
Proof.
  unfold Calendar.toordinal, midnight, Calendar.DAY_MS. intros Hle.
  Z.to_euclidean_division_equations. lia.
Qed.

Lemma days_NoDup (now : Z) :
  in_date_range (start_14 now) -> in_date_range now -> List.NoDup (days now).
Proof.
  unfold in_date_range. rewrite toordinal_start_14. intros Hstart Hnow.
  rewrite days_spec. apply NoDup_map_NoDup_ForallPairs; [| apply seq_NoDup].
  intros i j Hi Hj Heq. apply in_seq in Hi, Hj.
  apply isoformat_inj in Heq; lia.
Qed.

(** The day key of an order dated from [start_14] on, and not after the
    day of [now], is one of the 14 keys. *)
Lemma day_key_in_days (now t : Z) :
  (start_14 now <= t)%Z -> (Calendar.toordinal t <= Calendar.toordinal now)%Z ->
  In (Calendar.day_key t) (days now).
Proof.
  intros Hge Hle. apply toordinal_mono in Hge. rewrite toordinal_start_14 in Hge.
  rewrite days_spec. apply in_map_iff.
  exists (Z.to_nat (Calendar.toordinal t - Calendar.toordinal now + 13)).
  split; [| apply in_seq; lia].
  unfold Calendar.day_key. f_equal. lia.
Qed.

Lemma filter_filter_ext {A} (p q r : A -> bool) (l : list A) :
  (forall x, In x l -> q x && p x = r x) ->
  List.filter p (List.filter q l) = List.filter r l.
Proof.
  induction l as [| x l IH]; intros Hext; [reflexivity |].
  assert (IH' := IH (fun y Hy => Hext y (or_intror Hy))).
  pose proof (Hext x (or_introl eq_refl)) as Hx.
  cbn. destruct (q x); cbn in *; rewrite <- Hx; [destruct (p x) |]; now rewrite IH'.
Qed.

(** X6.  The 14 day keys are pairwise distinct, for dates that Python's [date]
    can hold. *)
Theorem timeseries_days_distinct (db : Database) (now : Z) :
  in_date_range (start_14 now) -> in_date_range now ->
  exists r, analytics_overview (Some db) now = Py.Ok r
    /\ List.NoDup (map ts_day (timeseries r)).
Proof.
  intros Hstart Hnow.
  destruct (analytics_overview_ok db now)
    as (r & Hr & _ & _ & _ & _ & _ & _ & Hts & _).
  exists r. split; [exact Hr |].
  rewrite Hts, map_map. cbn [ts_day day_entry]. rewrite map_id.
  now apply days_NoDup.
Qed.

Lemma timeseries_days_distinct_witness :
  exists r, analytics_overview (Some Sample.two_today) Sample.noon = Py.Ok r
    /\ List.NoDup (map ts_day (timeseries r)).
Proof.
  apply (timeseries_days_distinct Sample.two_today Sample.noon);
    vm_compute; split; discriminate.
Defined.

(** X7.  When no order is dated after the current day, the last entry of the
    series is the today window: same number of orders, and its revenue
    rounded to two decimals is [today_revenue]. *)
Theorem today_entry_is_today_window (db : Database) (now : Z) :
  in_date_range (start_14 now) -> in_date_range now ->
  (forall o t, In o (order db) -> placed_at o = Some t ->
               (Calendar.toordinal t <= Calendar.toordinal now)%Z) ->
  exists r e, analytics_overview (Some db) now = Py.Ok r
    /\ today_entry r = Some e
    /\ ts_day e = Calendar.day_key now
    /\ ts_orders e = today_orders r
    /\ Py.round2 (ts_revenue e) = today_revenue r.
Proof.
  intros Hstart Hnow Hpast.
  destruct (analytics_overview_ok db now)
    as (r & Hr & Htr & Hto & _ & _ & _ & _ & Hts & _).
  pose proof (timeseries_nth db now r 13 Hts ltac:(lia)) as Hnth.
  replace (Calendar.toordinal now - 13 + Z.of_nat 13)%Z
    with (Calendar.toordinal now) in Hnth by lia.
  fold (Calendar.day_key now) in Hnth.
  destruct (day_entry_spec now (order db) (Calendar.day_key now)) as (Hd & Hrev & Hord).
  cbv zeta in Hd, Hrev, Hord.
  destruct (window_fields (start_today now) db) as [Ht Htord].
  assert (Hsame : day_orders now (Calendar.day_key now) (order db)
                  = orders_since (start_today now) db).
  { unfold day_orders, orders_since. apply filter_filter_ext.
    intros o Hin. unfold placed_since, placed_on.
    destruct (placed_at o) as [t |] eqn:E; [| reflexivity].
    specialize (Hpast o t Hin E).
    rewrite start_today_midnight.
    pose proof (midnight_le now) as Hmid.
    pose proof (toordinal_midnight now) as Hmo.
    unfold in_date_range in *. rewrite toordinal_start_14 in Hstart.
    destruct (Z.leb_spec (midnight now) t) as [Hge | Hlt].
    - assert (Hord' : Calendar.toordinal t = Calendar.toordinal now).
      { apply toordinal_mono in Hge. lia. }
      rewrite (bool_decide_eq_true_2 _
                 (f_equal Calendar.isoformat Hord' : Calendar.day_key t = Calendar.day_key now)).
      rewrite andb_true_r. apply Z.leb_le.
      unfold start_14, Calendar.timedelta_days, Calendar.DAY_MS in *. lia.
    - destruct (Z.leb_spec (start_14 now) t) as [Hge14 | _]; [| reflexivity].
      cbn. apply bool_decide_eq_false_2. intros Hkey.
      apply toordinal_mono in Hge14. rewrite toordinal_start_14 in Hge14.
      apply isoformat_inj in Hkey; [| lia | lia].
      assert (midnight now <= t)%Z; [| lia].
      apply later_day_since_midnight. lia. }
  exists r. eexists. split; [exact Hr |]. split; [exact Hnth |].
  split; [exact Hd |]. split.
  - rewrite Hord, Hto, Htord, Hsame. reflexivity.
  - rewrite Htr, Ht, <- Hsame. now apply round2_proper.
Qed.

Lemma today_entry_is_today_window_witness :
  exists r e, analytics_overview (Some Sample.two_today) Sample.noon = Py.Ok r
    /\ today_entry r = Some e
    /\ ts_day e = Calendar.day_key Sample.noon
    /\ ts_orders e = today_orders r
    /\ Py.round2 (ts_revenue e) = today_revenue r.
Proof.
  apply (today_entry_is_today_window Sample.two_today Sample.noon).
  - vm_compute. split; discriminate.
  - vm_compute. split; discriminate.
  - intros o t [<- | [<- | []]] [= <-]; vm_compute; discriminate.
Defined.

Lemma sumZ_map_add {A} (f g : A -> Z) (l : list A) :
  sumZ (map (fun x => f x + g x)%Z l) = (sumZ (map f l) + sumZ (map g l))%Z.
Proof. induction l as [| x l IH]; cbn; unfold sumZ in *; cbn in *; lia. Qed.

Lemma sumQ_map_add {A} (f g : A -> Q) (l : list A) :
  sumQ (map (fun x => f x + g x) l) == sumQ (map f l) + sumQ (map g l).
Proof.
  induction l as [| x l IH]; cbn; [reflexivity |].
  fold (sumQ (map (fun x => f x + g x) l)) (sumQ (map f l)) (sumQ (map g l)).
  rewrite IH. ring.
Qed.

Lemma sumQ_map_ext {A} (f g : A -> Q) (l : list A) :
  (forall x, In x l -> f x == g x) -> sumQ (map f l) == sumQ (map g l).
Proof.
  induction l as [| x l IH]; intros Hext; cbn; [reflexivity |].
  fold (sumQ (map f l)) (sumQ (map g l)).
  rewrite (Hext x (or_introl eq_refl)), IH; [reflexivity |].
  intros y Hy. apply Hext. now right.
Qed.

(** Over distinct keys, exactly one matches a key of the list. *)
Lemma sumZ_indicator (ks : list string) (d : string) :
  List.NoDup ks -> In d ks ->
  sumZ (map (fun k => if bool_decide (d = k) then 1 else 0)%Z ks) = 1%Z.
Proof.
  induction 1 as [| k ks Hnotin Hnd IH]; intros Hin; [contradiction |].
  cbn. fold (sumZ (map (fun k => if bool_decide (d = k) then 1 else 0)%Z ks)).
  destruct Hin as [-> | Hin].
  - rewrite bool_decide_eq_true_2 by reflexivity.
    assert (Hzero : sumZ (map (fun k => if bool_decide (d = k) then 1 else 0)%Z ks) = 0%Z).
    { clear IH Hnd. induction ks as [| k ks IH]; [reflexivity |].
      cbn. rewrite bool_decide_eq_false_2 by (intros ->; apply Hnotin; now left).
      apply IH. intros Hd. apply Hnotin. now right. }
    lia.
  - rewrite bool_decide_eq_false_2 by (intros ->; contradiction).
    rewrite IH by exact Hin. reflexivity.
Qed.

Lemma sumQ_indicator (ks : list string) (d : string) (q : Q) :
  List.NoDup ks -> In d ks ->
  sumQ (map (fun k => if bool_decide (d = k) then q else 0) ks) == q.
Proof.
  induction 1 as [| k ks Hnotin Hnd IH]; intros Hin; [contradiction |].
  cbn. fold (sumQ (map (fun k => if bool_decide (d = k) then q else 0) ks)).
  destruct Hin as [-> | Hin].
  - rewrite bool_decide_eq_true_2 by reflexivity.
    assert (Hzero : sumQ (map (fun k => if bool_decide (d = k) then q else 0) ks) == 0).
    { clear IH Hnd. induction ks as [| k ks IH]; [reflexivity |].
      cbn. rewrite bool_decide_eq_false_2 by (intros ->; apply Hnotin; now left).
      fold (sumQ (map (fun k => if bool_decide (d = k) then q else 0) ks)).
      rewrite IH; [ring |]. intros Hd. apply Hnotin. now right. }
    rewrite Hzero. ring.
  - rewrite bool_decide_eq_false_2 by (intros ->; contradiction).
    rewrite IH by exact Hin. ring.
Qed.

(** Orders that each fall on one of a list of distinct days are
    partitioned by these days. *)
Lemma orders_by_day (ks : list string) (os : list Order) :
  List.NoDup ks ->
  (forall o, In o os -> exists t, placed_at o = Some t /\ In (Calendar.day_key t) ks) ->
  sumZ (map (fun k => count_of (List.filter (placed_on k) os)) ks) = count_of os
  /\ sumQ (map (fun k => revenue_of (List.filter (placed_on k) os)) ks) == revenue_of os.
Proof.
  intros Hnd. induction os as [| o os IH]; intros Hkeys.
  - split.
    + cbn. induction ks as [| k ks IHk]; [reflexivity |].
      inversion Hnd; subst. cbn. unfold sumZ in *. cbn. now rewrite IHk.
    + cbn. clear Hkeys. induction ks as [| k ks IHk]; [reflexivity |].
      inversion Hnd; subst. cbn.
      fold (sumQ (map (fun _ : string => revenue_of []) ks)).
      rewrite IHk by assumption. reflexivity.
  - destruct (IH (fun x Hx => Hkeys x (or_intror Hx))) as [IHc IHr].
    destruct (Hkeys o (or_introl eq_refl)) as (t & Ht & Hin).
    split.
    + rewrite (map_ext
                 (fun k => count_of (List.filter (placed_on k) (o :: os)))
                 (fun k => (if bool_decide (Calendar.day_key t = k) then 1 else 0)
                           + count_of (List.filter (placed_on k) os))%Z).
      * rewrite sumZ_map_add, IHc, sumZ_indicator by assumption.
        unfold count_of. cbn [length]. lia.
      * intros k. cbn [List.filter]. unfold placed_on at 1. rewrite Ht.
        destruct (bool_decide (Calendar.day_key t = k)); unfold count_of;
          cbn [length]; lia.
    + rewrite (sumQ_map_ext
                 (fun k => revenue_of (List.filter (placed_on k) (o :: os)))
                 (fun k => (if bool_decide (Calendar.day_key t = k)
                            then total_amount o else 0)
                           + revenue_of (List.filter (placed_on k) os))).
      * rewrite sumQ_map_add, IHr, sumQ_indicator by assumption.
        unfold revenue_of. cbn. reflexivity.
      * intros k _. cbn [List.filter]. unfold placed_on at 1. rewrite Ht.
        destruct (bool_decide (Calendar.day_key t = k)); unfold revenue_of; cbn;
          [reflexivity | ring].
Qed.



(** ** Order creation, demo orders and listings *)

Lemma fold_left_Qplus (l : list Q) (a : Q) : fold_left Qplus l a == a + sumQ l.
Proof.
  revert a. induction l as [| q l IH]; intros a; cbn.
  - ring.
  - rewrite IH. fold (sumQ l). ring.
Qed.

Lemma py_sum_sumQ (l : list Q) : py_sum l == sumQ l.
Proof. unfold py_sum. rewrite fold_left_Qplus. ring. Qed.


(** Lines of 0.1 x 3 and -0.30000000000000004 x 1 total 0.0 on doubles:
    the order is stored, with the status defaulted; a basket of
    59.99 x 2 and 49.0 is stored with total 168.98000000000002; a single
    negative line is rejected. *)
Example create_order_on_doubles :
  (exists o, Binary64.create_order Demo.new_id Cents.cancelling Sample.noon
             = Valid ("65f0"%string, o)
     /\ total_amount o = 0 /\ status o = "paid"%string)
  /\ (exists o, Binary64.create_order Demo.new_id Demo.basket Sample.noon
                = Valid ("65f0"%string, o)
        /\ total_amount o = Binary64.fl (16898000000000002 # 100000000000000))
  /\ Binary64.create_order Demo.new_id Demo.refund Sample.noon
     = ValidationError "total_amount".
Proof.
  split; [| split].
  - eexists. split; [vm_compute; reflexivity |]. split; reflexivity.
  - eexists. split; [vm_compute; reflexivity |]. vm_compute. reflexivity.
  - vm_compute. reflexivity.
Qed.

Lemma count_of_filter_pos {A} (p : A -> bool) (l : list A) (x : A) :
  In x l -> p x = true -> (1 <= count_of (List.filter p l))%Z.
Proof.
  intros Hin Hp.
  assert (Hx : In x (List.filter p l)) by (apply filter_In; now split).
  unfold count_of. destruct (List.filter p l); [contradiction | cbn; lia].
Qed.

(** X11.  An order created by [create_order] is counted by every overview taken
    later on the same UTC day: in the today and month-to-date figures, in
    the last entry of the series, and among the orders of the ranking. *)
Theorem created_order_counts_today (create_document : string -> Order -> string)
    (payload : Payload.t) (t : Z) (id : string) (o : Order)
    (db : Database) (now : Z) :
  create_order create_document payload t = Valid (id, o) ->
  In o (order db) ->
  (t <= now)%Z ->
  Calendar.toordinal now = Calendar.toordinal t ->
  exists r e, analytics_overview (Some db) now = Py.Ok r
    /\ (1 <= today_orders r)%Z /\ (1 <= mtd_orders r)%Z
    /\ today_entry r = Some e /\ (1 <= ts_orders e)%Z
    /\ In o (orders_since (last_30 now) db).
Proof.
  intros Hcreate Hin Hle Hord.
  assert (Hplaced : placed_at o = Some t).
  { unfold create_order in Hcreate.
    destruct (Order_model _) as [o' |] eqn:E; [| discriminate].
    injection Hcreate as _ <-.
    unfold Order_model in E. destruct (Qle_bool _ _); [| discriminate].
    now injection E as <-. }
  assert (Hmid : (midnight now <= t)%Z) by (apply later_day_since_midnight; lia).
  pose proof (midnight_le now) as Hnow.
  pose proof (start_month_le_today now) as Hmonth.
  pose proof (start_today_midnight now) as Htoday.
  assert (Hsince : forall start, (start <= midnight now)%Z -> placed_since start o = true)
    by (intros start Hs; unfold placed_since; rewrite Hplaced; lia).
  assert (H14 : (start_14 now <= midnight now)%Z)
    by (unfold start_14, Calendar.timedelta_days, Calendar.DAY_MS in *; lia).
  assert (H30 : (last_30 now <= midnight now)%Z)
    by (unfold last_30, Calendar.timedelta_days, Calendar.DAY_MS in *; lia).
  destruct (analytics_overview_ok db now)
    as (r & Hr & _ & Hto & _ & Hmo & _ & _ & Hts & _).
  destruct (window_fields (start_today now) db) as [_ Htord].
  destruct (window_fields (start_month now) db) as [_ Hmord].
  pose proof (timeseries_nth db now r 13 Hts ltac:(lia)) as Hnth.
  replace (Calendar.toordinal now - 13 + Z.of_nat 13)%Z
    with (Calendar.toordinal now) in Hnth by lia.
  fold (Calendar.day_key now) in Hnth.
  destruct (day_entry_spec now (order db) (Calendar.day_key now)) as (_ & _ & Hcount).
  cbv zeta in Hcount.
  exists r. eexists. split; [exact Hr |].
  split; [rewrite Hto, Htord; apply (count_of_filter_pos _ _ o Hin), Hsince; lia |].
  split; [rewrite Hmo, Hmord; apply (count_of_filter_pos _ _ o Hin), Hsince; lia |].
  split; [exact Hnth |].
  split.
  - rewrite Hcount. unfold day_orders.
    apply (count_of_filter_pos _ _ o).
    + apply filter_In. split; [exact Hin | now apply Hsince].
    + unfold placed_on. rewrite Hplaced. apply bool_decide_eq_true_2.
      unfold Calendar.day_key. now rewrite Hord.
  - apply filter_In. split; [exact Hin | now apply Hsince].
Qed.

Lemma created_order_counts_today_witness :
  exists r e, analytics_overview (Some Demo.with_basket) Sample.noon = Py.Ok r
    /\ (1 <= today_orders r)%Z /\ (1 <= mtd_orders r)%Z
    /\ today_entry r = Some e /\ (1 <= ts_orders e)%Z
    /\ In Demo.basket_order (orders_since (last_30 Sample.noon) Demo.with_basket).
Proof.
  apply (created_order_counts_today Demo.new_id Demo.basket
           (Sample.noon - Sample.hour) "65f0" Demo.basket_order
           Demo.with_basket Sample.noon).
  - vm_compute. reflexivity.
  - left. reflexivity.
  - vm_compute. discriminate.
  - vm_compute. reflexivity.
Defined.


Lemma distinct_pos {K} `{EqDecision K} (l : list K) :
  l <> [] -> (1 <= distinct l)%nat.
Proof.
  intros Hne. unfold distinct.
  destruct l as [| x l]; [congruence |].
  assert (Hin : In x (nodup (fun a b => decide (a = b)) (x :: l)))
    by (apply nodup_In; now left).
  destruct (nodup _ (x :: l)); [contradiction | cbn; lia].
Qed.

(** X13.  A demo order, dated at most 29 days back, is still inside the 30-day
    ranking window of every overview taken less than a day after it was
    seeded, so the top products of such an overview are not empty. *)
Theorem seed_order_is_ranked (d : Draws) (seeded_at : Z) (db : Database) (now : Z) :
  fair_draws d ->
  In (seed_order d seeded_at) (order db) ->
  (seeded_at <= now < seeded_at + Calendar.DAY_MS)%Z ->
  exists r, analytics_overview (Some db) now = Py.Ok r
    /\ In (seed_order d seeded_at) (orders_since (last_30 now) db)
    /\ (1 <= length (top_products r))%nat.
Proof.
  intros (Hlen & _ & Hdays) Hin Hnow.
  assert (Hsince : In (seed_order d seeded_at) (orders_since (last_30 now) db)).
  { apply filter_In. split; [exact Hin |].
    unfold placed_since. cbn [seed_order placed_at].
    unfold last_30, Calendar.timedelta_days, Calendar.DAY_MS in *. lia. }
  destruct (analytics_overview_ok db now)
    as (r & Hr & _ & _ & _ & _ & _ & Htop & _).
  exists r. split; [exact Hr |]. split; [exact Hsince |].
  rewrite Htop. unfold pipeline_top_products.
  rewrite (top_length _ _ (ranking_spec _)).
  rewrite match_placed_at_gte_since. fold (orders_since (last_30 now) db).
  apply Nat.min_glb; [lia |]. apply distinct_pos.
  destruct (picked d) as [| pq rest] eqn:E; [cbn in Hlen; lia |].
  apply in_split in Hsince. destruct Hsince as (l1 & l2 & ->).
  unfold Mongo.unwind_items. rewrite flat_map_app. cbn [flat_map seed_order items].
  rewrite E. cbn [map]. rewrite !map_app. cbn [map app].
  intros Hnil. apply app_eq_nil in Hnil. destruct Hnil as [_ Hnil]. discriminate.
Qed.

Lemma seed_order_is_ranked_witness :
  exists r, analytics_overview (Some Demo.seeded) (Sample.noon + Sample.hour) = Py.Ok r
    /\ In (seed_order Demo.draws Sample.noon)
         (orders_since (last_30 (Sample.noon + Sample.hour)) Demo.seeded)
    /\ (1 <= length (top_products r))%nat.
Proof.
  apply (seed_order_is_ranked Demo.draws Sample.noon Demo.seeded
           (Sample.noon + Sample.hour)).
  - unfold fair_draws. cbn. repeat split; try lia.
    repeat constructor; cbn; lia.
  - left. reflexivity.
  - vm_compute. split; [discriminate | reflexivity].
Defined.

Lemma expose_id_Some {V} (str : V -> V) (d d' : gmap string V) :
  expose_id str d = Some d' ->
  exists v, d !! "_id" = Some v
    /\ d' !! "id" = Some (str v) /\ d' !! "_id" = None
    /\ forall k, k <> "id"%string -> k <> "_id"%string -> d' !! k = d !! k.
Proof.
  unfold expose_id. destruct (d !! "_id") as [v |] eqn:E; cbn; [| discriminate].
  intros [= <-]. exists v. split; [reflexivity |].
  split; [apply lookup_insert_eq |].
  split; [rewrite lookup_insert_ne by discriminate; apply lookup_delete_eq |].
  intros k Hid Hraw.
  rewrite lookup_insert_ne by congruence. now rewrite lookup_delete_ne by congruence.
Qed.

(** X14.  The listings fail with [KeyError] exactly when a stored document has
    no ["_id"].  Otherwise they return as many documents as were read, in
    order, each with ["id"] set to [str] of its ["_id"] (replacing an
    ["id"] it may have had), without ["_id"], and with every other field
    unchanged. *)
Theorem list_documents_exposes_ids {V} (str : V -> V) (docs : list (gmap string V)) :
  (list_documents str docs = None <-> exists d, In d docs /\ d !! "_id" = None)
  /\ forall out, list_documents str docs = Some out ->
       length out = length docs
       /\ forall i d, docs !! i = Some d ->
          exists v d', d !! "_id" = Some v
            /\ out !! i = Some d'
            /\ d' !! "id" = Some (str v) /\ d' !! "_id" = None
            /\ forall k, k <> "id"%string -> k <> "_id"%string -> d' !! k = d !! k.
Proof.
  unfold list_documents. split.
  - rewrite mapM_None, Exists_exists. split.
    + intros (d & Hd & Hnone). exists d. split; [now apply list_elem_of_In |].
      unfold expose_id in Hnone. now destruct (d !! "_id").
    + intros (d & Hd & Hnone). exists d. split; [now apply list_elem_of_In |].
      unfold expose_id. now rewrite Hnone.
  - intros out Hout. apply mapM_Some_1 in Hout. split.
    + symmetry. now apply Forall2_length in Hout.
    + intros i d Hi.
      destruct (Forall2_lookup_l _ _ _ i d Hout Hi) as (d' & Hi' & Hd').
      destruct (expose_id_Some str d d' Hd') as (v & Hv & Hrest).
      exists v, d'. split; [exact Hv |]. split; [exact Hi' | exact Hrest].
Qed.

Lemma list_documents_exposes_ids_witness :
  exists out, list_documents (fun s : string => s) Demo.stored = Some out
    /\ length out = 2%nat.
Proof.
  destruct (list_documents (fun s : string => s) Demo.stored) as [out |] eqn:E.
  - exists out. split; [reflexivity |].
    apply (proj2 (list_documents_exposes_ids (fun s : string => s) Demo.stored) out E).
  - exfalso.
    apply (proj1 (list_documents_exposes_ids (fun s : string => s) Demo.stored)) in E.
    destruct E as (d & [<- | [<- | []]] & Hnone); vm_compute in Hnone; discriminate.
Defined.

Lemma sumZ_ge_length (l : list Z) :
  Forall (fun q => 1 <= q)%Z l -> (count_of l <= sumZ l)%Z.
Proof.
  unfold count_of. induction 1 as [| q l Hq _ IH]; cbn; [lia |].
  fold (sumZ l). lia.
Qed.

(** X15.  With line items that satisfy the item schema, [quantity >= 1], every
    top-product row reports a quantity of at least 1. *)
Theorem top_product_quantities_positive (db : Database) (now : Z) :
  (forall o it, In o (order db) -> In it (items o) -> (1 <= quantity it)%Z) ->
  exists r, analytics_overview (Some db) now = Py.Ok r
    /\ Forall (fun p => (1 <= tp_quantity p)%Z) (top_products r).
Proof.
  intros Hqty.
  destruct (analytics_overview_ok db now)
    as (r & Hr & _ & _ & _ & _ & _ & Htop & _).
  exists r. split; [exact Hr |].
  rewrite Htop. unfold pipeline_top_products.
  set (its := Mongo.unwind_items _).
  apply List.Forall_forall. intros p Hp.
  destruct (top_rows _ _ (ranking_spec its) p Hp) as (Hkey & -> & _).
  unfold group_quantity.
  assert (Hall : Forall (fun q => 1 <= q)%Z (map quantity (members item_key (row_key p) its))).
  { apply List.Forall_forall. intros q Hq.
    apply in_map_iff in Hq. destruct Hq as (it & <- & Hit).
    apply filter_In in Hit. destruct Hit as [Hit _].
    unfold its, Mongo.unwind_items in Hit. apply in_flat_map in Hit.
    destruct Hit as (o & Ho & Hin). apply filter_In in Ho.
    now apply (Hqty o it). }
  apply sumZ_ge_length in Hall.
  apply in_map_iff in Hkey. destruct Hkey as (it & Hk & Hit).
  assert (Hm : In it (members item_key (row_key p) its))
    by (apply filter_In; split; [exact Hit | now apply bool_decide_eq_true_2]).
  unfold count_of in Hall. rewrite length_map in Hall.
  destruct (members item_key (row_key p) its); [contradiction | cbn [length] in Hall; lia].
Qed.

Lemma top_product_quantities_positive_witness :
  exists r, analytics_overview (Some Sample.two_today) Sample.noon = Py.Ok r
    /\ Forall (fun p => (1 <= tp_quantity p)%Z) (top_products r).
Proof.
  apply (top_product_quantities_positive Sample.two_today Sample.noon).
  intros o it [<- | [<- | []]] [<- | []]; vm_compute; discriminate.
Defined.


(** X16.  When no order is dated after [now], the figures are those of
    the closed windows ending at [now]: today and month to date count the
    orders placed in [[start, now]] and report the double sum of their
    totals rounded to two decimals, and the ranking is over the items of
    the orders placed in [[now - 30 days, now]]. *)
Theorem closed_window_sums (db : Database) (now : Z) :
  (forall o t, In o (order db) -> placed_at o = Some t -> (t <= now)%Z) ->
  exists r, Binary64.analytics_overview (Some db) now = Py.Ok r
    /\ today_revenue r
       = Binary64.round2 (Binary64.revenue_of (orders_within (start_today now) now db))
    /\ today_orders r = count_of (orders_within (start_today now) now db)
    /\ mtd_revenue r
       = Binary64.round2 (Binary64.revenue_of (orders_within (start_month now) now db))
    /\ mtd_orders r = count_of (orders_within (start_month now) now db)
    /\ Binary64.top_products_of
         (Mongo.unwind_items (orders_within (last_30 now) now db)) (top_products r).
Proof.
  intros Hpast.
  destruct (b64_overview_ok db now)
    as (r & Hr & Htr & Hto & Hmr & Hmo & _ & Htop & _).
  exists r. split; [exact Hr |].
  rewrite <- !(orders_since_within _ now db Hpast).
  repeat (split; [assumption |]).
  rewrite Htop. apply b64_ranking_spec.
Qed.

Lemma closed_window_sums_witness :
  exists r, Binary64.analytics_overview (Some Sample.half_cents) Sample.noon = Py.Ok r
    /\ today_revenue r = Binary64.fl (1 # 100)
    /\ today_orders r
       = count_of (orders_within (start_today Sample.noon) Sample.noon Sample.half_cents).
Proof.
  destruct (closed_window_sums Sample.half_cents Sample.noon)
    as (r & Hr & Htr & Hto & _).
  - intros o t [<- | [<- | [<- | []]]] [= <-]; vm_compute; discriminate.
  - exists r. split; [exact Hr |]. split; [| exact Hto].
    rewrite Htr. vm_compute. reflexivity.
Defined.
